(** * emlo_crawler/crawler.py: the paginated crawl of EMLO result pages

    A shallow embedding of [src/emlo_crawler/crawler.py] and the properties
    of its record extractor and pagination driver.

    - A Python [str] is a sequence of Unicode code points: [list N].
    - The BeautifulSoup tree is represented by what the code asks of it:
      the [th]/[td] cells of a row, the text of a cell, the [a] tags below
      a cell, the rows of the element with id [results], the text of the
      first [span.font-18].
    - Exceptions are an explicit result; what is printed and requested is
      threaded through a state monad; methods take [self] as an argument.
    - The [while] loop of [crawl_collection] is run with fuel. *)

From Stdlib Require Import ZArith NArith List String Ascii Lia Decimal DecimalNat.
From stdpp Require Import base option list sorting gmap.

Local Open Scope N_scope.

(** ** Strings *)

Abbreviation char := N (only parsing).
Abbreviation str := (list N) (only parsing).

(** An ASCII literal as a Python string. *)
Definition u (s : string) : str :=
  map N_of_ascii (list_ascii_of_string s).

(** [str.isspace] on one code point (the characters [str.strip()] removes). *)
Definition isspace (c : char) : bool :=
  ((9 <=? c) && (c <=? 13)) || ((28 <=? c) && (c <=? 32))
  || (c =? 133) || (c =? 160) || (c =? 5760)
  || ((8192 <=? c) && (c <=? 8202))
  || (c =? 8232) || (c =? 8233) || (c =? 8239) || (c =? 8287) || (c =? 12288).

Fixpoint lstrip (s : str) : str :=
  match s with
  | c :: s' => if isspace c then lstrip s' else s
  | [] => []
  end.

Definition rstrip (s : str) : str := rev (lstrip (rev s)).

(** [s.strip()] *)
Definition strip (s : str) : str := rstrip (lstrip s).

(** [s.replace(c, '')] for a one-character [c]. *)
Definition remove_char (c : char) (s : str) : str :=
  List.filter (fun x => negb (x =? c)) s.

(** U+2022, the bullet. *)
Definition bullet : char := 8226.

Fixpoint starts_with (sep s : str) : bool :=
  match sep, s with
  | [], _ => true
  | _ :: _, [] => false
  | a :: sep', b :: s' => (a =? b) && starts_with sep' s'
  end.

(** [s.split(sep)] for a non-empty separator: [skip] counts the characters
    of a separator occurrence that remain to be passed over. *)
Fixpoint split_from (sep : str) (skip : nat) (s : str) : list str :=
  match s with
  | [] => [[]]
  | c :: s' =>
      match skip with
      | S k => split_from sep k s'
      | O =>
          if starts_with sep s
          then [] :: split_from sep (length sep - 1) s'
          else match split_from sep 0 s' with
               | w :: ws => (c :: w) :: ws
               | [] => [[c]]
               end
      end
  end.

Definition split (sep s : str) : list str := split_from sep 0 s.

(** ** Exceptions *)

Inductive exn : Set :=
| RequestException
| ValueError
| IndexError
| KeyError
| TypeError
| AttributeError
| AssertionError.

(** The result of a call that comes back: a value or a raised exception. *)
Inductive result (A : Type) : Type :=
| Return (a : A)
| Raise (e : exn).

Arguments Return {A} a.
Arguments Raise {A} e.

Definition bind_o {A B} (m : result A) (k : A -> result B) : result B :=
  match m with
  | Return a => k a
  | Raise e => Raise e
  end.

Notation "'let*' x ':=' m 'in' k" := (bind_o m (fun x => k))
  (at level 10, x name, m at level 100, k at level 200).

(** [l[i]] *)
Definition getitem {A} (l : list A) (i : nat) : result A :=
  match l !! i with
  | Some x => Return x
  | None => Raise IndexError
  end.

(** [l[i] = x] *)
Definition setitem {A} (l : list A) (i : nat) (x : A) : result (list A) :=
  if decide (i < length l)%nat then Return (<[i:=x]> l) else Raise IndexError.

(** [d[k]] *)
Definition getkey {V} (d : gmap str V) (k : str) : result V :=
  match d !! k with
  | Some v => Return v
  | None => Raise KeyError
  end.

(** ** The document tree *)

(** An [a] tag: its [href] attribute, if it has one. *)
Record Anchor := { href : option str }.

(** A [th] or [td] cell: its [.text] and the [a] tags below it, in
    document order ([find('a')] is the first). *)
Record Cell := { text : str; anchors : list Anchor }.

(** A [tr] row: [find_all('th')] and [find_all('td')]. *)
Record Row := { ths : list Cell; tds : list Cell }.

(** A page: [find(id='results')] with its [find_all('tr')], and the
    [.text] of [find('span', class_='font-18')]. *)
Record Soup := { results : option (list Row); font_18 : option str }.

(** ** Module-level functions of the record extractor *)

Definition clean_cell_content (cell : Cell) : str :=
  strip (remove_char bullet (text cell)).

Definition parse_results_header (header_row : Row) : result (list str) :=
  let headers := map clean_cell_content (ths header_row) in
  let* headers := setitem headers 0 (u "Result_num") in
  let* headers := setitem headers 1 (u "Doc_type") in
  Return headers.

(** [link_cell['href']], where [link_cell] is what [find('a')] gave. *)
Definition subscript_href (link_cell : option Anchor) : result str :=
  match link_cell with
  | None => Raise TypeError
  | Some a =>
      match href a with
      | Some h => Return h
      | None => Raise KeyError
      end
  end.

Definition get_result_identifier (results_row : Row) : result str :=
  let* td := getitem (tds results_row) 1 in
  let link_cell := head (anchors td) in
  let* url := subscript_href link_cell in
  let* before := getitem (split (u "?") url) 0 in
  let* doc_id := getitem (split (u "/") before) 3 in
  Return doc_id.

(** ** Numbers and text *)

(** [str(n)] for a non-negative [int], as an f-string formats it. *)
Fixpoint str_of_uint (d : Decimal.uint) : str :=
  match d with
  | Nil => []
  | D0 d => 48 :: str_of_uint d
  | D1 d => 49 :: str_of_uint d
  | D2 d => 50 :: str_of_uint d
  | D3 d => 51 :: str_of_uint d
  | D4 d => 52 :: str_of_uint d
  | D5 d => 53 :: str_of_uint d
  | D6 d => 54 :: str_of_uint d
  | D7 d => 55 :: str_of_uint d
  | D8 d => 56 :: str_of_uint d
  | D9 d => 57 :: str_of_uint d
  end.

Definition str_of_nat (n : nat) : str := str_of_uint (Nat.to_uint n).

(** Reading a decimal numeral back; used to state that a URL carries an
    offset. *)
Fixpoint uint_of_str (s : str) : option Decimal.uint :=
  match s with
  | [] => Some Nil
  | c :: s' =>
      match uint_of_str s' with
      | None => None
      | Some d =>
          if c =? 48 then Some (D0 d) else
          if c =? 49 then Some (D1 d) else
          if c =? 50 then Some (D2 d) else
          if c =? 51 then Some (D3 d) else
          if c =? 52 then Some (D4 d) else
          if c =? 53 then Some (D5 d) else
          if c =? 54 then Some (D6 d) else
          if c =? 55 then Some (D7 d) else
          if c =? 56 then Some (D8 d) else
          if c =? 57 then Some (D9 d) else None
      end
  end.

Definition nat_of_str (s : str) : option nat :=
  match s with
  | [] => None
  | _ => option_map Nat.of_uint (uint_of_str s)
  end.

(** Python's [int(s)] on a string is a parameter of the development.
    [int_decimal] stands for it where a run is evaluated: it is [int] on
    texts of ASCII digits, with an optional sign, single underscores
    between digits, and whitespace around them. Of the ASCII characters
    [int] passes over those of C's [isspace] only, so U+001C to U+001F,
    which [str.strip] removes, are no whitespace here. The digits of other
    scripts, which [int] reads too, and its limit on the number of digits
    are left out. *)
Definition digit_value (c : char) : option Z :=
  if (48 <=? c) && (c <=? 57) then Some (Z.of_N (c - 48)) else None.

Fixpoint parse_digits (acc : Z) (after_digit : bool) (s : str) : option Z :=
  match s with
  | [] => if after_digit then Some acc else None
  | c :: s' =>
      match digit_value c with
      | Some d => parse_digits (10 * acc + d)%Z true s'
      | None =>
          if (c =? 95) && after_digit then parse_digits acc false s' else None
      end
  end.

(** The whitespace [int] passes over. *)
Definition int_space (c : char) : bool :=
  isspace c && negb ((28 <=? c) && (c <=? 31)).

Fixpoint skip_int_space (s : str) : str :=
  match s with
  | c :: s' => if int_space c then skip_int_space s' else s
  | [] => []
  end.

Definition int_decimal (s : str) : option Z :=
  match rev (skip_int_space (rev (skip_int_space s))) with
  | 43 :: digits => parse_digits 0 false digits
  | 45 :: digits => option_map Z.opp (parse_digits 0 false digits)
  | digits => parse_digits 0 false digits
  end.

(** ** class EMLODoc *)

Module EMLODoc.

Record t := {
  collection_name : option str;
  id : option str;
  result_num : option Z;
  type : option str;
  date : option str;
  author : option str;
  origin : option str;
  addressee : option str;
  destination : option str;
  repository : option str
}.

(** [__init__] *)
Definition init (collection_name : option str) : t :=
  {| collection_name := collection_name; id := None; result_num := None;
     type := None; date := None; author := None; origin := None;
     addressee := None; destination := None; repository := None |}.

Section Methods.
Variable int : str -> option Z.

(** [int(s)], raising [ValueError] on text that is no integer. *)
Definition int_of (s : str) : result Z :=
  match int s with
  | Some n => Return n
  | None => Raise ValueError
  end.

Definition set_properties (self : t) (doc : gmap str str) : result t :=
  let* s := getkey doc (u "Result_num") in
  let* result_num := int_of s in
  let* id := getkey doc (u "doc_id") in
  let* type := getkey doc (u "Doc_type") in
  let* date := getkey doc (u "Date") in
  let* author := getkey doc (u "Author") in
  let* origin := getkey doc (u "Origin") in
  let* addressee := getkey doc (u "Addressee") in
  let* destination := getkey doc (u "Destination") in
  let* repository := getkey doc (u "Repositories & Versions") in
  Return {| collection_name := collection_name self;
            id := Some id; result_num := Some result_num;
            type := Some type; date := Some date; author := Some author;
            origin := Some origin; addressee := Some addressee;
            destination := Some destination;
            repository := Some repository |}.
End Methods.

(** [json]: the dictionary with its keys in the order of the literal; a
    value is a string, or [None] for an attribute that was not set. *)
Definition json (self : t) : list (str * option str) :=
  [(u "id", id self);
   (u "type", type self);
   (u "collection", collection_name self);
   (u "date", date self);
   (u "author", author self);
   (u "addressee", addressee self);
   (u "origin", origin self);
   (u "destination", destination self);
   (u "repository", repository self)].

End EMLODoc.

(** ** The outside world *)

(** What [print] writes, one constructor per call site. *)
Inductive line : Type :=
| crawling_collection (name : str)
| retrieving_results_starting_from (start_num : nat)
| of_retrieved (count : nat) (total : Z)
| span_text (s : str).

Inductive event : Type :=
| Print (l : line)
| HttpGet (url : str)
| Sleep.

(** [sent]: the number of requests issued so far; [trace]: everything the
    program did to the outside, oldest first. *)
Record io := { sent : nat; trace : list event }.

(** The outcome of a run: the call came back, or the fuel of the loop was
    used up before it did. *)
Inductive outcome (A : Type) : Type :=
| Done (r : result A)
| OutOfFuel.

Arguments Done {A} r.
Arguments OutOfFuel {A}.

Definition IO (A : Type) : Type := io -> outcome A * io.

Definition ret {A} (a : A) : IO A := fun w => (Done (Return a), w).

Definition raise {A} (e : exn) : IO A := fun w => (Done (Raise e), w).

Definition bind_io {A B} (m : IO A) (k : A -> IO B) : IO B :=
  fun w =>
    match m w with
    | (Done (Return a), w') => k a w'
    | (Done (Raise e), w') => (Done (Raise e), w')
    | (OutOfFuel, w') => (OutOfFuel, w')
    end.

Notation "'let!' x ':=' m 'in' k" := (bind_io m (fun x => k))
  (at level 10, x name, m at level 100, k at level 200).

(** A computation without effects, inside [IO]. *)
Definition pure {A} (m : result A) : IO A := fun w => (Done m, w).

Definition print (l : line) : IO unit :=
  fun w =>
    (Done (Return tt), {| sent := sent w; trace := trace w ++ [Print l] |}).

Record Response := { status_code : Z; content : Soup }.

Section Network.
(** [http k url]: what [requests.get(url)] gives when it is the request
    number [k] of the run; [None] when it raises (the exceptions of
    [requests] are subclasses of [RequestException]). [content] is the
    tree that [BeautifulSoup(response.content, 'lxml')] builds. *)
Variable http : nat -> str -> option Response.

(** The waiting time is a float and is not modelled; the call of
    [time.sleep] is recorded. *)
Definition get_wait_url (url : str) : IO Response :=
  fun w =>
    match http (sent w) url with
    | Some response =>
        (Done (Return response),
         {| sent := S (sent w); trace := trace w ++ [HttpGet url; Sleep] |})
    | None =>
        (Done (Raise RequestException),
         {| sent := S (sent w); trace := trace w ++ [HttpGet url] |})
    end.

Definition get_results_page (results_url : str) : IO Soup :=
  let! response := get_wait_url results_url in
  if decide (status_code response ≠ 200%Z)
  then raise RequestException
  else
    let page_soup := content response in
    ret page_soup.
End Network.

(** A list comprehension whose element expression can raise: elements are
    evaluated in order and the first exception ends it. *)
Fixpoint comprehension {A B} (f : A -> result B) (l : list A)
  : result (list B) :=
  match l with
  | [] => Return []
  | x :: l' =>
      let* y := f x in
      let* ys := comprehension f l' in
      Return (y :: ys)
  end.

(** [{header: cells[hi] for hi, header in enumerate(headers)}], from index
    [hi] on, added to [doc]. *)
Fixpoint dict_of_row (cells : list str) (hi : nat) (headers : list str)
    (doc : gmap str str) : result (gmap str str) :=
  match headers with
  | [] => Return doc
  | header :: headers' =>
      let* cell := getitem cells hi in
      dict_of_row cells (S hi) headers' (<[header := cell]> doc)
  end.

(** ** class EMLOCrawler *)

Module EMLOCrawler.

Record t := {
  base_url : str;
  collection_name : option str;
  search_name : option str
}.

(** [__init__] *)
Definition init : t :=
  {| base_url := u "http://emlo.bodleian.ox.ac.uk/forms/advanced";
     collection_name := None; search_name := None |}.

(** The object after [self.set_collection(collection_name, search_name)]. *)
Definition set_collection (self : t) (collection_name search_name : str) : t :=
  {| base_url := base_url self;
     collection_name := Some collection_name;
     search_name := Some search_name |}.

Definition assert_collection_set (self : t) : result unit :=
  match collection_name self with
  | None => Raise AssertionError
  | Some _ =>
      match search_name self with
      | None => Raise AssertionError
      | Some _ => Return tt
      end
  end.

(** [f"{x}"] for an attribute that is [None] or a string. *)
Definition format (x : option str) : str :=
  match x with
  | Some s => s
  | None => u "None"
  end.

Definition make_results_page_url (self : t) (start_num : nat) : result str :=
  let* _ := assert_collection_set self in
  let params :=
    u "?col_cat=" ++ format (search_name self)
      ++ u "&start=" ++ str_of_nat start_num in
  let search_url := base_url self ++ params in
  Return search_url.

(** The dictionary [parse_results_page] returns. *)
Record results_data := {
  total_results : Z;
  parsed_results : list EMLODoc.t
}.

Section Methods.
Variable int : str -> option Z.
Variable http : nat -> str -> option Response.

Definition get_results_page (self : t) (start_num : nat) : IO Soup :=
  let! _ := pure (assert_collection_set self) in
  let! results_url := pure (make_results_page_url self start_num) in
  let! page_soup := get_results_page http results_url in
  ret page_soup.

Definition make_emlo_doc (self : t) (results_row : Row)
    (headers : list str) : result EMLODoc.t :=
  let cells := map clean_cell_content (tds results_row) in
  let* doc := dict_of_row cells 0 headers ∅ in
  let* doc_id := get_result_identifier results_row in
  let doc := <[u "doc_id" := doc_id]> doc in
  let emlo_doc := EMLODoc.init (collection_name self) in
  EMLODoc.set_properties int emlo_doc doc.

(** [results_rows] is a Python list that [pop(0)] changes in place: the
    first component is the caller's list after the call. *)
Definition parse_results_rows (self : t) (results_rows : list Row)
  : list Row * result (list EMLODoc.t) :=
  match results_rows with
  | [] => ([], Raise IndexError)
  | header_row :: results_rows =>
      (results_rows,
       let* headers := parse_results_header header_row in
       comprehension (fun results_row => make_emlo_doc self results_row headers)
         results_rows)
  end.

Definition parse_results_page (self : t) (page_soup : Soup)
  : IO results_data :=
  match results page_soup with
  | None => raise AttributeError
  | Some results_rows =>
      let! results := pure (snd (parse_results_rows self results_rows)) in
      match font_18 page_soup with
      | None => raise AttributeError
      | Some span =>
          let! before :=
            pure (getitem (split (u " results") (strip span)) 0) in
          match int before with
          | Some total_results =>
              ret {| total_results := total_results;
                     parsed_results := results |}
          | None =>
              let! _ := print (span_text (strip span)) in
              raise ValueError
          end
      end
  end.

(** The body of the [while] loop: the new values of [crawl_finished]
    and [emlo_docs]. *)
Definition loop_body (self : t) (crawl_finished : bool)
    (emlo_docs : list EMLODoc.t) : IO (bool * list EMLODoc.t) :=
  let start_num := length emlo_docs in
  let! _ := print (retrieving_results_starting_from start_num) in
  let! page_soup := get_results_page self start_num in
  let! results_data := parse_results_page self page_soup in
  let emlo_docs := emlo_docs ++ parsed_results results_data in
  let! _ := print (of_retrieved (length emlo_docs)
                     (total_results results_data)) in
  if (Z.of_nat (length emlo_docs) >=? total_results results_data)%Z
  then ret (true, emlo_docs)
  else ret (crawl_finished, emlo_docs).

(** [while not crawl_finished: ...], at most [fuel] iterations. *)
Fixpoint while_not_finished (fuel : nat) (self : t) (crawl_finished : bool)
    (emlo_docs : list EMLODoc.t) : IO (list EMLODoc.t) :=
  if crawl_finished then ret emlo_docs
  else
    match fuel with
    | O => fun w => (OutOfFuel, w)
    | S fuel' =>
        let! st := loop_body self crawl_finished emlo_docs in
        while_not_finished fuel' self (fst st) (snd st)
    end.

(** The call returns [emlo_docs]; [self] is left as [set_collection]
    made it. *)
Definition crawl_collection (fuel : nat) (self : t)
    (collection_info : gmap str str) : IO (list EMLODoc.t) :=
  let! name := pure (getkey collection_info (u "collection_name")) in
  let! _ := print (crawling_collection name) in
  let! collection_name :=
    pure (getkey collection_info (u "collection_name")) in
  let! search_name := pure (getkey collection_info (u "search_name")) in
  let self := set_collection self collection_name search_name in
  let crawl_finished := false in
  let emlo_docs := [] in
  while_not_finished fuel self crawl_finished emlo_docs.
End Methods.

End EMLOCrawler.

(** ** Sample pages and servers *)

Module Sample.

Definition cell (s : string) : Cell := {| text := u s; anchors := [] |}.

Definition link (s h : string) : Cell :=
  {| text := u s; anchors := [{| href := Some (u h) |}] |}.

(** The header row of a results table; the first two cells carry no
    useful label. *)
Definition header_row : Row :=
  {| ths := [cell ""; cell " "; cell "Date"; cell "Author"; cell "Origin";
             cell "Addressee"; cell "Destination";
             cell "Repositories & Versions"];
     tds := [] |}.

(** The column names of that table. *)
Definition headers : list str :=
  [u "Result_num"; u "Doc_type"; u "Date"; u "Author"; u "Origin";
   u "Addressee"; u "Destination"; u "Repositories & Versions"].

(** The dictionary of a row under these names ([∅] when it has none). *)
Definition dict (results_row : Row) : gmap str str :=
  match dict_of_row (map clean_cell_content (tds results_row)) 0 headers ∅
  with
  | Return doc => doc
  | Raise _ => ∅
  end.

(** A data row whose sequence-number cell holds [num]. *)
Definition data_row_with (num : str) : Row :=
  {| ths := [];
     tds := [{| text := num; anchors := [] |};
             link "Letter" "/profile/work/DOC123?x=1";
             cell "1 Jan 1600"; cell "Scaliger, Joseph Justus";
             cell "Leiden"; cell "Casaubon, Isaac"; cell "Paris";
             cell "Leiden UB" ] |}.

Definition data_row (k : nat) : Row := data_row_with (str_of_nat k).

(** [n] data rows numbered from [start + 1]. *)
Definition data_rows (start n : nat) : list Row :=
  map (fun i => data_row (S i)) (seq start n).

(** A results page with [n] data rows that reports [total] results. *)
Definition page (start n total : nat) : Soup :=
  {| results := Some (header_row :: data_rows start n);
     font_18 := Some (str_of_nat total ++ u " results") |}.

Definition ok (page_soup : Soup) : option Response :=
  Some {| status_code := 200; content := page_soup |}.

Definition isdigit (c : char) : bool := (48 <=? c) && (c <=? 57).

Fixpoint leading_digits (s : str) : str :=
  match s with
  | c :: s' => if isdigit c then c :: leading_digits s' else []
  | [] => []
  end.

(** The offset a URL asks for: the numeral it ends in. *)
Definition offset_of (url : str) : nat :=
  default 0%nat (nat_of_str (rev (leading_digits (rev url)))).

(** A server with [total] records that serves them [per_page] at a time,
    from the offset asked for. *)
Definition paged (total per_page : nat) (k : nat) (url : str)
  : option Response :=
  let start := offset_of url in
  ok (page start (Nat.min per_page (total - start)) total).

(** A server whose every page has [n] data rows and reports [total]. *)
Definition constant (n total : nat) (k : nat) (url : str) : option Response :=
  ok (page 0 n total).

Definition scaliger : gmap str str :=
  <[u "collection_name" := u "Scaliger, Joseph Justus"]>
    (<[u "search_name" := u "Scaliger%2C+Joseph+Justus"]> ∅).

Definition start : io := {| sent := 0; trace := [] |}.

(** A crawl of that collection from a fresh crawler, against [http]. *)
Definition crawl (http : nat -> str -> option Response) (fuel : nat)
  : outcome (list EMLODoc.t) * io :=
  EMLOCrawler.crawl_collection int_decimal http fuel EMLOCrawler.init
    scaliger start.

(** The list a run returned ([[]] when it did not return). *)
Definition returned (o : outcome (list EMLODoc.t)) : list EMLODoc.t :=
  match o with
  | Done (Return emlo_docs) => emlo_docs
  | _ => []
  end.

End Sample.

(** ** What the claims speak of *)

(** The href up to its first occurrence of [c] (all of it when there is
    none): "truncating the href at any '?'". *)
Fixpoint truncate_at (c : char) (s : str) : str :=
  match s with
  | [] => []
  | x :: s' => if c =? x then [] else x :: truncate_at c s'
  end.


(** ** The run as the trace shows it *)

(** The pairs [(count, total)] of the lines
    [print(len(emlo_docs), 'of', total, 'retrieved')], oldest first: the
    accumulated count after each completed iteration and the total the
    page of that iteration reported. *)
Definition progress (tr : list event) : list (nat * Z) :=
  omap (fun e => match e with
                 | Print (of_retrieved count total) => Some (count, total)
                 | _ => None
                 end) tr.

(** The URLs requested, oldest first. *)
Definition requests (tr : list event) : list str :=
  omap (fun e => match e with HttpGet url => Some url | _ => None end) tr.

(** The URL of the results page at offset [start_num]. *)
Definition url_for (self : EMLOCrawler.t) (start_num : nat) : str :=
  EMLOCrawler.base_url self ++ u "?col_cat="
    ++ EMLOCrawler.format (EMLOCrawler.search_name self)
    ++ u "&start=" ++ str_of_nat start_num.

(** The count of a progress line is still below the total of its page. *)
Definition below_total (p : nat * Z) : Prop := (Z.of_nat (fst p) < snd p)%Z.

(** What every run of the loop from [emlo_docs0] shows in the events [new]
    it added, whatever its outcome: every count printed so far is below
    the total printed with it, the counts never decrease, and request [k]
    asks for the offset that is the count after iteration [k - 1]. *)
Definition pending (self : EMLOCrawler.t) (len0 : nat) (new : list event)
  : Prop :=
  Forall below_total (progress new)
  /\ StronglySorted le (len0 :: map fst (progress new))
  /\ requests new
     = map (url_for self)
         (take (length (requests new)) (len0 :: map fst (progress new))).

(** The same for a run that returned [emlo_docs]: the last line printed
    carries the final count, which has reached its total. *)
Definition finished (self : EMLOCrawler.t) (len0 : nat) (new : list event)
    (emlo_docs : list EMLODoc.t) : Prop :=
  (exists before total,
      progress new = before ++ [(length emlo_docs, total)]
      /\ Forall below_total before
      /\ (total <= Z.of_nat (length emlo_docs))%Z)
  /\ StronglySorted le (len0 :: map fst (progress new))
  /\ requests new
     = map (url_for self)
         (take (length (requests new)) (len0 :: map fst (progress new))).


(** The state at the head of the loop, in a run from [emlo_docs0] and
    [w0]: the loop invariant. *)
Definition at_head (self : EMLOCrawler.t) (emlo_docs0 : list EMLODoc.t)
    (w0 : io) (emlo_docs : list EMLODoc.t) (w : io) : Prop :=
  exists new,
    trace w = trace w0 ++ new
    /\ sent w = (sent w0 + length (requests new))%nat
    /\ Forall below_total (progress new)
    /\ StronglySorted le (length emlo_docs0 :: map fst (progress new))
    /\ last (length emlo_docs0 :: map fst (progress new))
       = Some (length emlo_docs)
    /\ requests new
       = map (url_for self)
           (take (length (progress new))
              (length emlo_docs0 :: map fst (progress new))).

(** The events [new] added since [w0] satisfy [P], and each request was
    counted. *)
Definition summary (w0 : io) (P : list event -> Prop) (w' : io) : Prop :=
  exists new,
    trace w' = trace w0 ++ new
    /\ sent w' = (sent w0 + length (requests new))%nat
    /\ P new.

(** No whitespace in front. *)
Definition no_lead (s : str) : Prop :=
  match s with
  | c :: _ => isspace c = false
  | [] => True
  end.

(** ** Further notions *)

(** Whitespace, as a proposition. *)
Definition space (c : char) : Prop := isspace c = true.

(** The number of '/' in the href before its first '?'. *)
Definition slashes (url : str) : nat :=
  count_occ N.eq_dec (truncate_at 63 url) 47.

(** The columns [set_properties] reads as text, each with the attribute
    it sets. *)
Definition columns : list (str * (EMLODoc.t -> option str)) :=
  [(u "Doc_type", EMLODoc.type);
   (u "Date", EMLODoc.date);
   (u "Author", EMLODoc.author);
   (u "Origin", EMLODoc.origin);
   (u "Addressee", EMLODoc.addressee);
   (u "Destination", EMLODoc.destination);
   (u "Repositories & Versions", EMLODoc.repository)].

(** The events of the iterations that went through, one block for each
    pair [(count, total)] of [pages]: the offset printed, the request at
    that offset, the sleep, the progress line. The next block starts at
    the count the block before ended with. *)
Fixpoint blocks (self : EMLOCrawler.t) (start_num : nat)
    (pages : list (nat * Z)) : list event :=
  match pages with
  | [] => []
  | (count, total) :: pages' =>
      Print (retrieving_results_starting_from start_num)
      :: HttpGet (url_for self start_num)
      :: Sleep
      :: Print (of_retrieved count total)
      :: blocks self count pages'
  end.

(** What is left of the events after the blocks, by the outcome: nothing
    when the crawl returned [emlo_docs] (the last count being their
    number) or is still in the loop; the iteration that raised, cut where
    it raised, otherwise. [n] is the count the blocks ended with. *)
Definition remainder (self : EMLOCrawler.t) (n : nat)
    (out : outcome (list EMLODoc.t)) (rest : list event) : Prop :=
  match out with
  | Done (Return emlo_docs) => rest = [] /\ n = length emlo_docs
  | OutOfFuel => rest = []
  | Done (Raise e) =>
      exists evs,
        rest = Print (retrieving_results_starting_from n)
               :: HttpGet (url_for self n) :: evs
        /\ ((evs = [] /\ e = RequestException)
            \/ evs = [Sleep]
            \/ (exists s, evs = [Sleep; Print (span_text s)]
                          /\ e = ValueError))
  end.

(** Every attribute that [set_properties] sets is set. *)
Definition complete (emlo_doc : EMLODoc.t) : Prop :=
  is_Some (EMLODoc.result_num emlo_doc)
  /\ is_Some (EMLODoc.id emlo_doc)
  /\ Forall (fun column => is_Some (snd column emlo_doc)) columns.

(** The pages behind a list of records: page [i] is what the rows of the
    response to request [k + i] gave, that request being at the offset
    [start_num] plus the number of records of the pages before it. *)
Fixpoint fetched (int : str -> option Z)
    (http : nat -> str -> option Response) (self : EMLOCrawler.t)
    (k start_num : nat) (pages : list (list EMLODoc.t)) : Prop :=
  match pages with
  | [] => True
  | page :: pages' =>
      (exists response results_rows,
          http k (url_for self start_num) = Some response
          /\ status_code response = 200%Z
          /\ results (content response) = Some results_rows
          /\ snd (EMLOCrawler.parse_results_rows int self results_rows)
             = Return page)
      /\ fetched int http self (S k) (start_num + length page) pages'
  end.

(** A status of the class HTTP calls successful, 2xx. *)
Definition success_status (status_code : Z) : bool :=
  ((200 <=? status_code) && (status_code <? 300))%Z.

(** The rows of the page gave their records and the text of the span,
    stripped and cut before its first [" results"], is no integer. *)
Definition total_unreadable (int : str -> option Z) (self : EMLOCrawler.t)
    (page_soup : Soup) (span : str) : Prop :=
  exists results_rows records before,
    results page_soup = Some results_rows
    /\ snd (EMLOCrawler.parse_results_rows int self results_rows)
       = Return records
    /\ font_18 page_soup = Some span
    /\ split (u " results") (strip span) !! 0%nat = Some before
    /\ int before = None.

(** * Properties *)

(** ** Cell cleaning *)

Section Strip.

Lemma lstrip_no_lead s : no_lead (lstrip s).
Proof.
  induction s as [|c s IH]; simpl; [exact I|].
  destruct (isspace c) eqn:E; [exact IH | exact E].
Qed.

Lemma lstrip_fixed s : no_lead s -> lstrip s = s.
Proof.
  destruct s as [|c s]; simpl; [reflexivity|].
  intros ->. reflexivity.
Qed.

Lemma lstrip_idem s : lstrip (lstrip s) = lstrip s.
Proof. apply lstrip_fixed, lstrip_no_lead. Qed.

(** [lstrip] cuts a run of whitespace off the front. *)
Lemma lstrip_suffix s : exists t, s = t ++ lstrip s.
Proof.
  induction s as [|c s [t IH]]; simpl.
  - exists []. reflexivity.
  - destruct (isspace c).
    + exists (c :: t). simpl. congruence.
    + exists []. reflexivity.
Qed.

(** [rstrip] cuts at the end only. *)
Lemma rstrip_prefix s : exists t, s = rstrip s ++ t.
Proof.
  unfold rstrip. destruct (lstrip_suffix (rev s)) as [t Ht].
  exists (rev t).
  rewrite <- rev_app_distr, <- Ht, rev_involutive. reflexivity.
Qed.

Lemma rstrip_no_lead s : no_lead s -> no_lead (rstrip s).
Proof.
  destruct (rstrip_prefix s) as [t Ht]. revert Ht.
  destruct (rstrip s) as [|c r]; [intros; exact I|].
  intros ->. simpl. auto.
Qed.

Lemma rstrip_idem s : rstrip (rstrip s) = rstrip s.
Proof. unfold rstrip. rewrite rev_involutive, lstrip_idem. reflexivity. Qed.

Lemma strip_idem s : strip (strip s) = strip s.
Proof.
  unfold strip.
  rewrite (lstrip_fixed (rstrip (lstrip s))).
  - apply rstrip_idem.
  - apply rstrip_no_lead, lstrip_no_lead.
Qed.

Variable P : char -> Prop.

Lemma lstrip_Forall s : Forall P s -> Forall P (lstrip s).
Proof.
  induction 1 as [|c s Hc Hs IH]; simpl; [constructor|].
  destruct (isspace c); [exact IH | constructor; assumption].
Qed.

Lemma strip_Forall s : Forall P s -> Forall P (strip s).
Proof.
  intros H. unfold strip, rstrip.
  apply List.Forall_rev, lstrip_Forall, List.Forall_rev, lstrip_Forall, H.
Qed.

End Strip.

Lemma remove_char_Forall c s : Forall (fun x => x <> c) (remove_char c s).
Proof.
  unfold remove_char. induction s as [|x s IH]; simpl; [constructor|].
  destruct (N.eqb_spec x c); simpl; [exact IH | constructor; assumption].
Qed.

Lemma remove_char_absent c s :
  Forall (fun x => x <> c) s -> remove_char c s = s.
Proof.
  unfold remove_char. induction 1 as [|x s Hx Hs IH]; simpl; [reflexivity|].
  destruct (N.eqb_spec x c); [contradiction|]. simpl. rewrite IH. reflexivity.
Qed.

(** A text without bullets and without whitespace at either end is left as
    it is. *)
Lemma clean_cell_content_fixed cell :
  Forall (fun x => x <> bullet) (text cell) ->
  strip (text cell) = text cell ->
  clean_cell_content cell = text cell.
Proof.
  intros Hb Hs. unfold clean_cell_content.
  rewrite remove_char_absent by assumption. exact Hs.
Qed.

(** C9. Cell cleaning is idempotent: cleaning a cell whose text is the
    cleaned text of a cell gives that text again, for every cell text. *)
Theorem clean_cell_content_idempotent (cell : Cell) :
  clean_cell_content
    {| text := clean_cell_content cell; anchors := anchors cell |}
  = clean_cell_content cell.
Proof.
  unfold clean_cell_content at 1. simpl.
  unfold clean_cell_content.
  rewrite remove_char_absent.
  - apply strip_idem.
  - apply strip_Forall, remove_char_Forall.
Qed.

(** ** The header row *)

(** C8. For a header row with at least two cells, whatever their texts,
    the column names start with [Result_num] and [Doc_type]; the others
    are the cleaned texts of the other cells, in order. *)
Theorem parse_results_header_forced (header_row : Row) :
  (2 <= length (ths header_row))%nat ->
  exists headers,
    parse_results_header header_row = Return headers
    /\ headers !! 0%nat = Some (u "Result_num")
    /\ headers !! 1%nat = Some (u "Doc_type")
    /\ length headers = length (ths header_row)
    /\ drop 2 headers = map clean_cell_content (drop 2 (ths header_row)).
Proof.
  intros Hlen. unfold parse_results_header.
  destruct (ths header_row) as [|a [|b rest]]; simpl in Hlen; try lia.
  eexists. split; [reflexivity|]. simpl.
  rewrite length_map. repeat split; reflexivity.
Qed.

Lemma parse_results_header_forced_witness :
  exists headers,
    parse_results_header Sample.header_row = Return headers
    /\ headers !! 0%nat = Some (u "Result_num")
    /\ headers !! 1%nat = Some (u "Doc_type")
    /\ length headers = length (ths Sample.header_row)
    /\ drop 2 headers = map clean_cell_content (drop 2 (ths Sample.header_row)).
Proof.
  apply (parse_results_header_forced Sample.header_row). simpl. lia.
Defined.

(** A header row with fewer than two cells has no column names. *)
Lemma parse_results_header_short header_row :
  (length (ths header_row) < 2)%nat ->
  parse_results_header header_row = Raise IndexError.
Proof.
  unfold parse_results_header.
  destruct (ths header_row) as [|a [|b rest]]; simpl; intros; try lia;
    reflexivity.
Qed.

(** ** The document identifier *)

Lemma split_char_head c s : split [c] s !! 0%nat = Some (truncate_at c s).
Proof.
  unfold split. induction s as [|x s IH]; simpl; [reflexivity|].
  destruct (c =? x); simpl; [reflexivity|].
  destruct (split_from [c] 0 s) as [|w ws]; [discriminate IH|].
  simpl in *. congruence.
Qed.



(** ** Rows to records *)

Lemma comprehension_Forall2 {A B} (f : A -> result B) l ys :
  comprehension f l = Return ys <-> Forall2 (fun x y => f x = Return y) l ys.
Proof.
  revert ys. induction l as [|x l IH]; intros ys; simpl.
  - split.
    + intros [= <-]. constructor.
    + intros H. inversion H. reflexivity.
  - split.
    + destruct (f x) as [y|e] eqn:Ex; simpl; [|discriminate].
      destruct (comprehension f l) as [zs|e] eqn:El; simpl; [|discriminate].
      intros [= <-]. constructor; [exact Ex | apply IH; reflexivity].
    + intros H. inversion H as [|? y ? zs Hy Hzs]; subst.
      rewrite Hy. simpl. apply IH in Hzs. rewrite Hzs. reflexivity.
Qed.

Lemma comprehension_raises {A B} (f : A -> result B) l x e :
  In x l -> f x = Raise e -> exists e', comprehension f l = Raise e'.
Proof.
  intros Hin Hx. induction l as [|y l IH]; simpl in *; [contradiction|].
  destruct (f y) as [b|e'] eqn:Ey; simpl; [|eauto].
  destruct Hin as [->|Hin]; [congruence|].
  destruct (IH Hin) as [e' ->]. simpl. eauto.
Qed.


(** An empty list has nothing to pop. *)
Lemma parse_results_rows_empty int self :
  EMLOCrawler.parse_results_rows int self [] = ([], Raise IndexError).
Proof. reflexivity. Qed.

(** ** Fetching a page *)

(** C6, as the code has it: the status that counts is 200. When the
    response to the request has a status other than 200,
    [get_results_page] raises [RequestException]; when it is 200, it returns
    the page. Either way one request was sent. *)
Theorem get_results_page_status
    (http : nat -> str -> option Response) (results_url : str) (w : io)
    (response : Response) :
  http (sent w) results_url = Some response ->
  let w' := {| sent := S (sent w);
               trace := trace w ++ [HttpGet results_url; Sleep] |} in
  (status_code response <> 200%Z ->
   get_results_page http results_url w = (Done (Raise RequestException), w'))
  /\ (status_code response = 200%Z ->
      get_results_page http results_url w
      = (Done (Return (content response)), w')).
Proof.
  intros H. unfold get_results_page, bind_io, get_wait_url. rewrite H.
  split; intros Hs; destruct (decide (status_code response ≠ 200%Z));
    try contradiction; reflexivity.
Qed.

(** A request that fails on the way raises as well, after one attempt. *)
Lemma get_results_page_no_response http results_url w :
  http (sent w) results_url = None ->
  get_results_page http results_url w
  = (Done (Raise RequestException),
     {| sent := S (sent w); trace := trace w ++ [HttpGet results_url] |}).
Proof.
  intros H. unfold get_results_page, bind_io, get_wait_url. rewrite H.
  reflexivity.
Qed.

(** The claim as stated fails: 204 is a successful status, yet the page is
    not returned. *)
Lemma get_results_page_raises_on_204 :
  let response := {| status_code := 204; content := Sample.page 0 0 0 |} in
  success_status (status_code response) = true
  /\ get_results_page (fun _ _ => Some response)
       (u "http://emlo.bodleian.ox.ac.uk/") Sample.start
     = (Done (Raise RequestException),
        {| sent := 1;
           trace := [HttpGet (u "http://emlo.bodleian.ox.ac.uk/"); Sleep] |}).
Proof. split; reflexivity. Qed.

(** ** One iteration *)

Section Iteration.
Variable int : str -> option Z.
Variable http : nat -> str -> option Response.
Variable self : EMLOCrawler.t.
Hypothesis collection_set : EMLOCrawler.assert_collection_set self = Return tt.

Lemma make_results_page_url_set start_num :
  EMLOCrawler.make_results_page_url self start_num
  = Return (url_for self start_num).
Proof.
  unfold EMLOCrawler.make_results_page_url. rewrite collection_set.
  reflexivity.
Qed.

(** What one pass through the loop body does: it prints the offset,
    requests the page at the offset [len(emlo_docs)], and either raises
    or prints the new count and the total. *)
Lemma loop_body_run crawl_finished emlo_docs w :
  exists r w' evs,
    EMLOCrawler.loop_body int http self crawl_finished emlo_docs w
    = (Done r, w')
    /\ trace w'
       = trace w
           ++ Print (retrieving_results_starting_from (length emlo_docs))
           :: HttpGet (url_for self (length emlo_docs)) :: evs
    /\ sent w' = S (sent w)
    /\ requests evs = []
    /\ match r with
       | Raise e => progress evs = []
       | Return (finished, emlo_docs') =>
           exists response results_rows page total,
             http (sent w) (url_for self (length emlo_docs)) = Some response
             /\ status_code response = 200%Z
             /\ results (content response) = Some results_rows
             /\ snd (EMLOCrawler.parse_results_rows int self results_rows)
                = Return page
             /\ emlo_docs' = emlo_docs ++ page
             /\ progress evs = [(length emlo_docs', total)]
             /\ finished
                = if (Z.of_nat (length emlo_docs') >=? total)%Z
                  then true else crawl_finished
       end.
Proof.
  unfold EMLOCrawler.loop_body, EMLOCrawler.get_results_page, bind_io,
    print, pure.
  rewrite collection_set, make_results_page_url_set. simpl.
  unfold get_results_page, bind_io, get_wait_url. simpl.
  destruct (http (sent w) (url_for self (length emlo_docs)))
    as [response|] eqn:Hhttp.
  2: { do 3 eexists. split; [reflexivity|]. simpl.
       rewrite <- app_assoc. simpl. repeat split; reflexivity. }
  destruct (decide (status_code response ≠ 200%Z)) as [Hs|Hs].
  { do 3 eexists. split; [reflexivity|]. simpl.
    rewrite <- app_assoc. simpl. repeat split; reflexivity. }
  apply dec_stable in Hs.
  unfold ret, EMLOCrawler.parse_results_page.
  destruct (results (content response)) as [results_rows|] eqn:Hrows.
  2: { do 3 eexists. split; [reflexivity|]. simpl.
       rewrite <- app_assoc. simpl. repeat split; reflexivity. }
  unfold bind_io, pure.
  destruct (snd (EMLOCrawler.parse_results_rows int self results_rows))
    as [page|e] eqn:Hpage.
  2: { do 3 eexists. split; [reflexivity|]. simpl.
       rewrite <- app_assoc. simpl. repeat split; reflexivity. }
  destruct (font_18 (content response)) as [span|].
  2: { do 3 eexists. split; [reflexivity|]. simpl.
       rewrite <- app_assoc. simpl. repeat split; reflexivity. }
  destruct (getitem (split (u " results") (strip span)) 0) as [before|e].
  2: { do 3 eexists. split; [reflexivity|]. simpl.
       rewrite <- app_assoc. simpl. repeat split; reflexivity. }
  destruct (int before) as [total|].
  2: { do 3 eexists. split; [reflexivity|]. simpl.
       rewrite <- !app_assoc. simpl. repeat split; reflexivity. }
  unfold ret. simpl.
  destruct (Z.of_nat (length (emlo_docs ++ page)) >=? total)%Z eqn:Hge;
    do 3 eexists; (split; [reflexivity|]); simpl;
    rewrite <- !app_assoc; simpl;
    (split; [reflexivity|]); (split; [reflexivity|]);
    (split; [reflexivity|]);
    exists response, results_rows, page, total; rewrite Hge;
    repeat split; assumption.
Qed.
End Iteration.

(** ** The loop *)

Lemma last_take_snoc {A} (l : list A) x :
  last l = Some x -> take (length l - 1) l ++ [x] = l.
Proof.
  destruct l as [|y l] using rev_ind; [discriminate|].
  rewrite last_snoc. intros [= ->].
  rewrite length_app. simpl.
  replace (length l + 1 - 1)%nat with (length l) by lia.
  rewrite take_app_length. reflexivity.
Qed.

Lemma sorted_below_last (l : list nat) x :
  StronglySorted le l -> last l = Some x -> Forall (fun y => y <= x)%nat l.
Proof.
  destruct l as [|y l] using rev_ind; [discriminate|].
  rewrite last_snoc. intros Hs [= ->].
  apply Forall_app. split.
  - apply Forall_forall. intros z Hz.
    apply (StronglySorted_app_1_elem_of _ _ _ _ _ Hs Hz). set_solver.
  - repeat constructor.
Qed.

Section Loop.
Variable int : str -> option Z.
Variable http : nat -> str -> option Response.
Variable self : EMLOCrawler.t.
Hypothesis collection_set : EMLOCrawler.assert_collection_set self = Return tt.

Lemma while_finished fuel emlo_docs w :
  EMLOCrawler.while_not_finished int http fuel self true emlo_docs w
  = (Done (Return emlo_docs), w).
Proof. destruct fuel; reflexivity. Qed.

(** The rule of the loop: an invariant [I] of the state at the head of
    the loop, kept by each iteration that does not finish, gives [Q] on
    return, [E] on an exception and [F] when the fuel runs out. *)
Lemma while_rule (I Q : list EMLODoc.t -> io -> Prop) (E F : io -> Prop) :
  (forall emlo_docs w finished emlo_docs' w',
      I emlo_docs w ->
      EMLOCrawler.loop_body int http self false emlo_docs w
      = (Done (Return (finished, emlo_docs')), w') ->
      if finished then Q emlo_docs' w' else I emlo_docs' w') ->
  (forall emlo_docs w e w',
      I emlo_docs w ->
      EMLOCrawler.loop_body int http self false emlo_docs w
      = (Done (Raise e), w') ->
      E w') ->
  (forall emlo_docs w, I emlo_docs w -> F w) ->
  forall fuel emlo_docs w,
    I emlo_docs w ->
    match EMLOCrawler.while_not_finished int http fuel self false emlo_docs w
    with
    | (Done (Return emlo_docs'), w') => Q emlo_docs' w'
    | (Done (Raise e), w') => E w'
    | (OutOfFuel, w') => F w'
    end.
Proof.
  intros Hret Hraise Hfuel.
  induction fuel as [|fuel IH]; intros emlo_docs w HI; simpl.
  - eapply Hfuel, HI.
  - unfold bind_io.
    destruct (loop_body_run int http self collection_set false emlo_docs w)
      as (r & w' & evs & Hrun & _).
    rewrite Hrun.
    destruct r as [[fin emlo_docs']|e].
    + specialize (Hret _ _ _ _ _ HI Hrun). simpl.
      destruct fin.
      * rewrite while_finished. exact Hret.
      * apply IH, Hret.
    + eapply Hraise; eassumption.
Qed.

Variable emlo_docs0 : list EMLODoc.t.
Variable w0 : io.

Lemma at_head_start : at_head self emlo_docs0 w0 emlo_docs0 w0.
Proof.
  exists []. rewrite app_nil_r. simpl.
  repeat split; auto; try lia; repeat constructor.
Qed.

Lemma at_head_requests (emlo_docs : list EMLODoc.t) new :
  last (length emlo_docs0 :: map fst (progress new)) = Some (length emlo_docs) ->
  requests new
  = map (url_for self)
      (take (length (progress new))
         (length emlo_docs0 :: map fst (progress new))) ->
  requests new ++ [url_for self (length emlo_docs)]
  = map (url_for self) (length emlo_docs0 :: map fst (progress new)).
Proof.
  intros Hlast ->.
  rewrite <- (last_take_snoc _ _ Hlast) at 2.
  rewrite map_app. simpl. rewrite length_map.
  replace (length (progress new) - 0)%nat with (length (progress new)) by lia.
  reflexivity.
Qed.

Lemma at_head_pending emlo_docs w :
  at_head self emlo_docs0 w0 emlo_docs w ->
  exists new,
    trace w = trace w0 ++ new
    /\ sent w = (sent w0 + length (requests new))%nat
    /\ pending self (length emlo_docs0) new.
Proof.
  intros (new & Htr & Hsent & Hbelow & Hsorted & Hlast & Hreq).
  exists new. repeat split; try assumption.
  rewrite Hreq at 1. f_equal. f_equal.
  rewrite Hreq, length_map, length_take. simpl. rewrite length_map. lia.
Qed.
End Loop.

Lemma requests_iteration new l url evs :
  requests (new ++ Print l :: HttpGet url :: evs)
  = requests new ++ url :: requests evs.
Proof. unfold requests. rewrite omap_app. reflexivity. Qed.

Lemma progress_iteration new start_num url evs :
  progress
    (new ++ Print (retrieving_results_starting_from start_num)
         :: HttpGet url :: evs)
  = progress new ++ progress evs.
Proof. unfold progress. rewrite omap_app. reflexivity. Qed.

Section Run.
Variable int : str -> option Z.
Variable http : nat -> str -> option Response.
Variable self : EMLOCrawler.t.
Hypothesis collection_set : EMLOCrawler.assert_collection_set self = Return tt.

Lemma loop_body_returns crawl_finished emlo_docs w finished emlo_docs' w' :
  EMLOCrawler.loop_body int http self crawl_finished emlo_docs w
  = (Done (Return (finished, emlo_docs')), w') ->
  exists evs response results_rows page total,
    trace w'
    = trace w
        ++ Print (retrieving_results_starting_from (length emlo_docs))
        :: HttpGet (url_for self (length emlo_docs)) :: evs
    /\ sent w' = S (sent w)
    /\ requests evs = []
    /\ http (sent w) (url_for self (length emlo_docs)) = Some response
    /\ status_code response = 200%Z
    /\ results (content response) = Some results_rows
    /\ snd (EMLOCrawler.parse_results_rows int self results_rows)
       = Return page
    /\ emlo_docs' = emlo_docs ++ page
    /\ progress evs = [(length emlo_docs', total)]
    /\ finished
       = if (Z.of_nat (length emlo_docs') >=? total)%Z
         then true else crawl_finished.
Proof.
  intros H.
  destruct (loop_body_run int http self collection_set
              crawl_finished emlo_docs w)
    as (r & w'' & evs & Hrun & Htr & Hsent & Hreq & Hr).
  rewrite H in Hrun. injection Hrun as <- <-.
  destruct Hr as (response & rows & page & total & Hr).
  exists evs, response, rows, page, total. tauto.
Qed.

Lemma loop_body_raises crawl_finished emlo_docs w e w' :
  EMLOCrawler.loop_body int http self crawl_finished emlo_docs w
  = (Done (Raise e), w') ->
  exists evs,
    trace w'
    = trace w
        ++ Print (retrieving_results_starting_from (length emlo_docs))
        :: HttpGet (url_for self (length emlo_docs)) :: evs
    /\ sent w' = S (sent w)
    /\ requests evs = []
    /\ progress evs = [].
Proof.
  intros H.
  destruct (loop_body_run int http self collection_set
              crawl_finished emlo_docs w)
    as (r & w'' & evs & Hrun & Htr & Hsent & Hreq & Hr).
  rewrite H in Hrun. injection Hrun as <- <-.
  exists evs. tauto.
Qed.

Variable emlo_docs0 : list EMLODoc.t.
Variable w0 : io.

Lemma at_head_step (emlo_docs page : list EMLODoc.t) new :
  StronglySorted le (length emlo_docs0 :: map fst (progress new)) ->
  last (length emlo_docs0 :: map fst (progress new))
  = Some (length emlo_docs) ->
  requests new
  = map (url_for self)
      (take (length (progress new))
         (length emlo_docs0 :: map fst (progress new))) ->
  StronglySorted le
    ((length emlo_docs0 :: map fst (progress new))
       ++ [length (emlo_docs ++ page)])
  /\ requests new ++ [url_for self (length emlo_docs)]
     = map (url_for self)
         (take (S (length (progress new)))
            ((length emlo_docs0 :: map fst (progress new))
               ++ [length (emlo_docs ++ page)])).
Proof.
  intros Hsorted Hlast Hreq. split.
  - apply StronglySorted_app_2; [|exact Hsorted|repeat constructor].
    intros x1 x2 Hx1 Hx2. apply list_elem_of_singleton in Hx2. subst x2.
    pose proof (sorted_below_last _ _ Hsorted Hlast) as Hall.
    rewrite Forall_forall in Hall. specialize (Hall x1 Hx1).
    rewrite length_app. lia.
  - rewrite (at_head_requests self emlo_docs0 emlo_docs new Hlast Hreq).
    rewrite take_app_length'; [reflexivity|].
    simpl. rewrite length_map. reflexivity.
Qed.

Lemma at_head_returns emlo_docs w fin emlo_docs' w' :
  at_head self emlo_docs0 w0 emlo_docs w ->
  EMLOCrawler.loop_body int http self false emlo_docs w
  = (Done (Return (fin, emlo_docs')), w') ->
  if fin
  then summary w0 (fun new => finished self (length emlo_docs0) new emlo_docs') w'
  else at_head self emlo_docs0 w0 emlo_docs' w'.
Proof.
  intros (new & Htr & Hsent & Hbelow & Hsorted & Hlast & Hreq) Hbody.
  apply loop_body_returns in Hbody
    as (evs & response & rows & page & total & Htr' & Hsent' & Hreqs
        & _ & _ & _ & _ & -> & Hprog & ->).
  destruct (at_head_step emlo_docs page new Hsorted Hlast Hreq)
    as [Hsorted' Hreq'].
  set (new' := new ++ Print (retrieving_results_starting_from
                               (length emlo_docs))
                   :: HttpGet (url_for self (length emlo_docs)) :: evs).
  assert (trace w' = trace w0 ++ new') as Htr''.
  { unfold new'. rewrite Htr', Htr, <- app_assoc. reflexivity. }
  assert (requests new' = requests new ++ [url_for self (length emlo_docs)])
    as Hreq''.
  { unfold new'. rewrite requests_iteration, Hreqs. reflexivity. }
  assert (progress new'
          = progress new ++ [(length (emlo_docs ++ page), total)]) as Hprog'.
  { unfold new'. rewrite progress_iteration, Hprog. reflexivity. }
  assert (sent w' = (sent w0 + length (requests new'))%nat) as Hsent''.
  { rewrite Hreq'', Hsent', Hsent, length_app. simpl. lia. }
  assert (map fst (progress new')
          = map fst (progress new) ++ [length (emlo_docs ++ page)]) as Hns.
  { rewrite Hprog', map_app. reflexivity. }
  assert (length (requests new') = S (length (progress new))) as Hlen.
  { rewrite Hreq'', length_app, Hreq, length_map, length_take. simpl.
    rewrite length_map. lia. }
  destruct (Z.of_nat (length (emlo_docs ++ page)) >=? total)%Z eqn:Hge.
  - exists new'. split; [exact Htr''|]. split; [exact Hsent''|].
    unfold finished. rewrite Hns, Hlen, Hreq''.
    split; [|split; [exact Hsorted'|exact Hreq']].
    exists (progress new), total.
    split; [exact Hprog'|]. split; [exact Hbelow|].
    apply Z.geb_le in Hge. lia.
  - exists new'. split; [exact Htr''|]. split; [exact Hsent''|].
    rewrite Hns, Hreq'', Hprog'.
    split.
    { apply Forall_app. split; [exact Hbelow|].
      repeat constructor. unfold below_total. simpl.
      rewrite Z.geb_leb in Hge. apply Z.leb_gt in Hge. lia. }
    split; [exact Hsorted'|].
    split.
    { change (length emlo_docs0
                :: map fst (progress new) ++ [length (emlo_docs ++ page)])
        with ((length emlo_docs0 :: map fst (progress new))
                ++ [length (emlo_docs ++ page)]).
      apply last_snoc. }
    replace (length (progress new ++ [(length (emlo_docs ++ page), total)]))
      with (S (length (progress new)))
      by (rewrite (length_app (progress new)); simpl; lia).
    exact Hreq'.
Qed.

Lemma at_head_raises emlo_docs w e w' :
  at_head self emlo_docs0 w0 emlo_docs w ->
  EMLOCrawler.loop_body int http self false emlo_docs w
  = (Done (Raise e), w') ->
  summary w0 (pending self (length emlo_docs0)) w'.
Proof.
  intros (new & Htr & Hsent & Hbelow & Hsorted & Hlast & Hreq) Hbody.
  apply loop_body_raises in Hbody as (evs & Htr' & Hsent' & Hreqs & Hprog).
  exists (new ++ Print (retrieving_results_starting_from (length emlo_docs))
              :: HttpGet (url_for self (length emlo_docs)) :: evs).
  unfold pending.
  rewrite requests_iteration, progress_iteration, Hreqs, Hprog, app_nil_r.
  split; [rewrite Htr', Htr, <- app_assoc; reflexivity|].
  split; [rewrite Hsent', Hsent, length_app; simpl; lia|].
  split; [exact Hbelow|]. split; [exact Hsorted|].
  rewrite (at_head_requests self emlo_docs0 emlo_docs new Hlast Hreq).
  rewrite take_ge; [reflexivity|].
  rewrite length_map. simpl. lia.
Qed.

(** Every run of the loop, summed up. *)
Lemma while_not_finished_run fuel :
  match EMLOCrawler.while_not_finished int http fuel self false emlo_docs0 w0
  with
  | (Done (Return emlo_docs), w') =>
      exists new,
        trace w' = trace w0 ++ new
        /\ sent w' = (sent w0 + length (requests new))%nat
        /\ finished self (length emlo_docs0) new emlo_docs
  | (_, w') =>
      exists new,
        trace w' = trace w0 ++ new
        /\ sent w' = (sent w0 + length (requests new))%nat
        /\ pending self (length emlo_docs0) new
  end.
Proof.
  apply (while_rule int http self collection_set
           (at_head self emlo_docs0 w0)
           (fun emlo_docs =>
              summary w0 (fun new =>
                         finished self (length emlo_docs0) new emlo_docs))
           (summary w0 (pending self (length emlo_docs0)))
           (summary w0 (pending self (length emlo_docs0)))).
  - apply at_head_returns.
  - apply at_head_raises.
  - intros emlo_docs w. apply at_head_pending.
  - apply at_head_start.
Qed.
End Run.

(** ** The whole crawl *)


Section Crawl.
Variable int : str -> option Z.
Variable http : nat -> str -> option Response.
Variable self : EMLOCrawler.t.
Variable collection_info : gmap str str.

Lemma set_collection_set c s :
  EMLOCrawler.assert_collection_set (EMLOCrawler.set_collection self c s)
  = Return tt.
Proof. reflexivity. Qed.

(** With both keys in [collection_info], the call is the loop, started
    after the first line is printed. *)
Lemma crawl_collection_loop fuel w c s :
  collection_info !! u "collection_name" = Some c ->
  collection_info !! u "search_name" = Some s ->
  EMLOCrawler.crawl_collection int http fuel self collection_info w
  = EMLOCrawler.while_not_finished int http fuel
      (EMLOCrawler.set_collection self c s) false []
      {| sent := sent w;
         trace := trace w ++ [Print (crawling_collection c)] |}.
Proof.
  intros Hc Hs. unfold EMLOCrawler.crawl_collection, bind_io, pure, getkey.
  rewrite Hc, Hs. reflexivity.
Qed.

(** Without one of them it raises [KeyError] before any request. *)
Lemma crawl_collection_no_key fuel w :
  collection_info !! u "collection_name" = None
  \/ collection_info !! u "search_name" = None ->
  exists new,
    EMLOCrawler.crawl_collection int http fuel self collection_info w
    = (Done (Raise KeyError),
       {| sent := sent w; trace := trace w ++ new |})
    /\ progress new = [] /\ requests new = [].
Proof.
  unfold EMLOCrawler.crawl_collection, bind_io, pure, getkey.
  destruct (collection_info !! u "collection_name") as [c|].
  - intros [H|H]; [discriminate|]. rewrite H.
    exists [Print (crawling_collection c)]. repeat split.
  - intros _. exists []. rewrite app_nil_r. destruct w. repeat split.
Qed.

Lemma crawl_collection_keys fuel w emlo_docs w' :
  EMLOCrawler.crawl_collection int http fuel self collection_info w
  = (Done (Return emlo_docs), w') ->
  exists c s,
    collection_info !! u "collection_name" = Some c
    /\ collection_info !! u "search_name" = Some s.
Proof.
  intros H.
  destruct (collection_info !! u "collection_name") as [c|] eqn:Hc.
  - destruct (collection_info !! u "search_name") as [s|] eqn:Hs; [eauto|].
    destruct (crawl_collection_no_key fuel w (or_intror Hs))
      as (new & E & _). congruence.
  - destruct (crawl_collection_no_key fuel w (or_introl Hc))
      as (new & E & _). congruence.
Qed.

(** Every crawl, summed up. *)
Lemma crawl_collection_run fuel w c s :
  collection_info !! u "collection_name" = Some c ->
  collection_info !! u "search_name" = Some s ->
  match EMLOCrawler.crawl_collection int http fuel self collection_info w
  with
  | (Done (Return emlo_docs), w') =>
      exists new,
        trace w' = trace w ++ new
        /\ sent w' = (sent w + length (requests new))%nat
        /\ finished (EMLOCrawler.set_collection self c s) 0 new emlo_docs
  | (_, w') =>
      exists new,
        trace w' = trace w ++ new
        /\ sent w' = (sent w + length (requests new))%nat
        /\ pending (EMLOCrawler.set_collection self c s) 0 new
  end.
Proof.
  intros Hc Hs. rewrite (crawl_collection_loop fuel w c s Hc Hs).
  pose proof
    (while_not_finished_run int http (EMLOCrawler.set_collection self c s)
       (set_collection_set c s) []
       {| sent := sent w;
          trace := trace w ++ [Print (crawling_collection c)] |} fuel) as H.
  destruct (EMLOCrawler.while_not_finished int http fuel
              (EMLOCrawler.set_collection self c s) false []
              {| sent := sent w;
                 trace := trace w ++ [Print (crawling_collection c)] |})
    as [[[emlo_docs|e]|] w'];
    destruct H as (new & Htr & Hsent & H);
    exists (Print (crawling_collection c) :: new);
    (split; [rewrite Htr; simpl; rewrite <- app_assoc; reflexivity|]);
    (split; [exact Hsent|]); exact H.
Qed.

End Crawl.

(** ** A row whose sequence number is no integer *)

Section Unparsable.
Variable int : str -> option Z.
Variable results_row : Row.
Variable headers : list str.
Variable doc : gmap str str.
Variable field : str.
Hypothesis row_dict :
  dict_of_row (map clean_cell_content (tds results_row)) 0 headers ∅
  = Return doc.
Hypothesis row_field : doc !! u "Result_num" = Some field.
Hypothesis no_integer : int field = None.

Lemma set_properties_raises emlo_doc doc_id :
  EMLODoc.set_properties int emlo_doc (<[u "doc_id" := doc_id]> doc)
  = Raise ValueError.
Proof.
  unfold EMLODoc.set_properties, getkey.
  rewrite lookup_insert_ne by (vm_compute; discriminate).
  rewrite row_field. simpl. unfold EMLODoc.int_of. rewrite no_integer.
  reflexivity.
Qed.

Lemma make_emlo_doc_raises self :
  exists e,
    EMLOCrawler.make_emlo_doc int self results_row headers = Raise e
    /\ (forall doc_id,
           get_result_identifier results_row = Return doc_id ->
           e = ValueError).
Proof.
  unfold EMLOCrawler.make_emlo_doc. rewrite row_dict. simpl.
  destruct (get_result_identifier results_row) as [doc_id|e]; simpl.
  - rewrite set_properties_raises. eauto.
  - exists e. split; [reflexivity|]. discriminate.
Qed.

Variable header_row : Row.
Variable rows : list Row.
Hypothesis header_names : parse_results_header header_row = Return headers.
Hypothesis row_on_page : In results_row rows.

Lemma parse_results_rows_raises self :
  exists e,
    snd (EMLOCrawler.parse_results_rows int self (header_row :: rows))
    = Raise e.
Proof.
  simpl. rewrite header_names. simpl.
  destruct (make_emlo_doc_raises self) as (e & He & _).
  eapply comprehension_raises; eassumption.
Qed.

Lemma parse_results_page_raises self page_soup w :
  results page_soup = Some (header_row :: rows) ->
  exists e,
    EMLOCrawler.parse_results_page int self page_soup w = (Done (Raise e), w).
Proof.
  intros Hrows. unfold EMLOCrawler.parse_results_page. rewrite Hrows.
  unfold bind_io, pure.
  destruct (parse_results_rows_raises self) as [e ->]. eauto.
Qed.

Variable http : nat -> str -> option Response.

Lemma loop_body_unparsable self crawl_finished emlo_docs w response :
  EMLOCrawler.assert_collection_set self = Return tt ->
  http (sent w) (url_for self (length emlo_docs)) = Some response ->
  status_code response = 200%Z ->
  results (content response) = Some (header_row :: rows) ->
  exists e,
    EMLOCrawler.loop_body int http self crawl_finished emlo_docs w
    = (Done (Raise e),
       {| sent := S (sent w);
          trace := trace w
                     ++ [Print (retrieving_results_starting_from
                                  (length emlo_docs));
                         HttpGet (url_for self (length emlo_docs));
                         Sleep] |}).
Proof.
  intros Hset Hhttp Hstatus Hrows.
  unfold EMLOCrawler.loop_body, EMLOCrawler.get_results_page, bind_io,
    print, pure.
  rewrite Hset, (make_results_page_url_set self Hset). simpl.
  unfold get_results_page, bind_io, get_wait_url. simpl.
  rewrite Hhttp.
  destruct (decide (status_code response ≠ 200%Z)) as [Hs|Hs];
    [contradiction|].
  unfold ret.
  match goal with
  | |- context [EMLOCrawler.parse_results_page int self ?p ?w1] =>
      destruct (parse_results_page_raises self p w1 Hrows) as [e ->]
  end.
  exists e. rewrite <- app_assoc. reflexivity.
Qed.
End Unparsable.

(** A record comes only from a row whose [Result_num] field is an integer,
    and carries that integer. *)
Lemma make_emlo_doc_returns int self results_row headers emlo_doc :
  EMLOCrawler.make_emlo_doc int self results_row headers = Return emlo_doc ->
  exists doc field n,
    dict_of_row (map clean_cell_content (tds results_row)) 0 headers ∅
    = Return doc
    /\ doc !! u "Result_num" = Some field
    /\ int field = Some n
    /\ EMLODoc.result_num emlo_doc = Some n.
Proof.
  unfold EMLOCrawler.make_emlo_doc.
  destruct (dict_of_row (map clean_cell_content (tds results_row)) 0 headers ∅)
    as [doc|e]; simpl; [|discriminate].
  destruct (get_result_identifier results_row) as [doc_id|e]; simpl;
    [|discriminate].
  unfold EMLODoc.set_properties, getkey at 1.
  rewrite lookup_insert_ne by (vm_compute; discriminate).
  destruct (doc !! u "Result_num") as [field|] eqn:Hfield; simpl;
    [|discriminate].
  unfold EMLODoc.int_of.
  destruct (int field) as [n|] eqn:Hint; simpl; [|discriminate].
  intros H. exists doc, field, n. repeat split; try assumption.
  repeat match type of H with
         | (let* _ := ?m in _) = _ => destruct m; simpl in H; [|discriminate H]
         end.
  injection H as <-. reflexivity.
Qed.

(** C5. A data row whose [Result_num] field is no integer yields no
    record: [set_properties] raises [ValueError], so [make_emlo_doc] raises
    (that error, unless the identifier of the row already failed), and
    nothing catches it: [parse_results_rows], [parse_results_page], the
    iteration that fetched the page and the crawl raise as well. *)
Theorem unparsable_result_num_aborts
    (int : str -> option Z) (results_row : Row) (headers : list str)
    (doc : gmap str str) (field : str) :
  dict_of_row (map clean_cell_content (tds results_row)) 0 headers ∅
  = Return doc ->
  doc !! u "Result_num" = Some field ->
  int field = None ->
  (forall emlo_doc doc_id,
      EMLODoc.set_properties int emlo_doc (<[u "doc_id" := doc_id]> doc)
      = Raise ValueError)
  /\ (forall self,
         exists e,
           EMLOCrawler.make_emlo_doc int self results_row headers = Raise e
           /\ (forall doc_id,
                  get_result_identifier results_row = Return doc_id ->
                  e = ValueError))
  /\ (forall header_row rows,
         parse_results_header header_row = Return headers ->
         In results_row rows ->
         (forall self,
             exists e,
               snd (EMLOCrawler.parse_results_rows int self
                      (header_row :: rows))
               = Raise e)
         /\ (forall self page_soup w,
                results page_soup = Some (header_row :: rows) ->
                exists e,
                  EMLOCrawler.parse_results_page int self page_soup w
                  = (Done (Raise e), w))
         /\ (forall http self fuel emlo_docs w response,
                EMLOCrawler.assert_collection_set self = Return tt ->
                http (sent w) (url_for self (length emlo_docs))
                = Some response ->
                status_code response = 200%Z ->
                results (content response) = Some (header_row :: rows) ->
                exists e w',
                  EMLOCrawler.while_not_finished int http (S fuel) self
                    false emlo_docs w
                  = (Done (Raise e), w')
                  /\ progress (trace w') = progress (trace w))
         /\ (forall http self fuel collection_info c s w response,
                collection_info !! u "collection_name" = Some c ->
                collection_info !! u "search_name" = Some s ->
                http (sent w)
                  (url_for (EMLOCrawler.set_collection self c s) 0)
                = Some response ->
                status_code response = 200%Z ->
                results (content response) = Some (header_row :: rows) ->
                exists e w',
                  EMLOCrawler.crawl_collection int http (S fuel) self
                    collection_info w
                  = (Done (Raise e), w'))).
Proof.
  intros Hdict Hfield Hint.
  split; [intros; eapply set_properties_raises; eassumption|].
  split; [intros; eapply make_emlo_doc_raises; eassumption|].
  intros header_row rows Hhead Hin.
  split; [intros; eapply parse_results_rows_raises; eassumption|].
  split; [intros; eapply parse_results_page_raises; eassumption|].
  assert (forall http self fuel emlo_docs w response,
             EMLOCrawler.assert_collection_set self = Return tt ->
             http (sent w) (url_for self (length emlo_docs)) = Some response ->
             status_code response = 200%Z ->
             results (content response) = Some (header_row :: rows) ->
             exists e w',
               EMLOCrawler.while_not_finished int http (S fuel) self
                 false emlo_docs w
               = (Done (Raise e), w')
               /\ progress (trace w') = progress (trace w)) as Hloop.
  { intros http self fuel emlo_docs w response Hset Hhttp Hstatus Hrows.
    destruct (loop_body_unparsable int results_row headers doc field
                Hdict Hfield Hint header_row rows Hhead Hin http self false
                emlo_docs w response Hset Hhttp Hstatus Hrows) as [e He].
    simpl. unfold bind_io. rewrite He.
    do 2 eexists. split; [reflexivity|]. simpl.
    unfold progress. rewrite omap_app. simpl. apply app_nil_r. }
  split; [exact Hloop|].
  intros http self fuel collection_info c s w response Hc Hs Hhttp Hstatus Hrows.
  rewrite (crawl_collection_loop int http self collection_info (S fuel) w c s
             Hc Hs).
  destruct (Hloop http (EMLOCrawler.set_collection self c s) fuel []
              {| sent := sent w;
                 trace := trace w ++ [Print (crawling_collection c)] |}
              response eq_refl Hhttp Hstatus Hrows) as (e & w' & He & _).
  eauto.
Qed.

(** ** Numerals *)

Lemma uint_of_str_of_uint d : uint_of_str (str_of_uint d) = Some d.
Proof. induction d; simpl; rewrite ?IHd; reflexivity. Qed.

(** The numeral in the URL denotes the offset. *)
Lemma nat_of_str_of_nat n : nat_of_str (str_of_nat n) = Some n.
Proof.
  unfold nat_of_str, str_of_nat.
  destruct (str_of_uint (Nat.to_uint n)) as [|c digits] eqn:E.
  - assert (Nat.to_uint n = Nil) as Hnil
      by (destruct (Nat.to_uint n); [reflexivity|discriminate E..]).
    pose proof (DecimalNat.Unsigned.of_to n) as Hn.
    rewrite Hnil in Hn. simpl in Hn. subst n. discriminate Hnil.
  - rewrite <- E, uint_of_str_of_uint. simpl.
    rewrite DecimalNat.Unsigned.of_to. reflexivity.
Qed.

(** ** The sample server *)






(** ** The pagination driver *)

Lemma progress_crawling c new :
  progress (Print (crawling_collection c) :: new) = progress new.
Proof. reflexivity. Qed.




(** Whatever the outcome of a crawl in which every page reported the
    total [T]: the count is below [T] after every iteration but the one on
    which the crawl returns, and has reached [T] after that one. *)
Lemma crawl_collection_below_total_until_last
    (int : str -> option Z) (http : nat -> str -> option Response)
    (fuel : nat) (self : EMLOCrawler.t) (collection_info : gmap str str)
    (w w' : io) (out : outcome (list EMLODoc.t)) (new : list event) (T : Z) :
  EMLOCrawler.crawl_collection int http fuel self collection_info w
  = (out, w') ->
  trace w' = trace w ++ new ->
  Forall (fun p => snd p = T) (progress new) ->
  match out with
  | Done (Return emlo_docs) =>
      exists before,
        progress new = before ++ [(length emlo_docs, T)]
        /\ Forall (fun p => (Z.of_nat (fst p) < T)%Z) before
        /\ (T <= Z.of_nat (length emlo_docs))%Z
  | _ => Forall (fun p => (Z.of_nat (fst p) < T)%Z) (progress new)
  end.
Proof.
  intros Hrun Htr Hstable.
  assert (forall l,
             Forall below_total l -> Forall (fun p => snd p = T) l ->
             Forall (fun p => (Z.of_nat (fst p) < T)%Z) l) as Hbelow_T.
  { intros l Hb Hs. rewrite Forall_forall in *. intros p Hp.
    specialize (Hb p Hp). specialize (Hs p Hp).
    unfold below_total in Hb. lia. }
  destruct (collection_info !! u "collection_name") as [c|] eqn:Hc;
    [destruct (collection_info !! u "search_name") as [s|] eqn:Hs|].
  - pose proof (crawl_collection_run int http self collection_info fuel w
                  c s Hc Hs) as Hsum.
    rewrite Hrun in Hsum.
    destruct out as [[emlo_docs|e]|];
      destruct Hsum as (new0 & Htr0 & _ & Hsum);
      assert (new0 = new) as ->
        by (apply (app_inv_head (trace w)); congruence).
    + destruct Hsum as ((before & total & Hprog & Hbelow & Hge) & _).
      rewrite Hprog in Hstable. apply Forall_app in Hstable as [Hb Hl].
      apply Forall_inv in Hl. simpl in Hl. subst total.
      exists before. auto.
    + destruct Hsum as (Hbelow & _). auto.
    + destruct Hsum as (Hbelow & _). auto.
  - destruct (crawl_collection_no_key int http self collection_info fuel w
                (or_intror Hs)) as (new0 & E & Hprog & _).
    rewrite E in Hrun. injection Hrun as <- <-. simpl in Htr.
    apply app_inv_head in Htr. subst new0. rewrite Hprog. constructor.
  - destruct (crawl_collection_no_key int http self collection_info fuel w
                (or_introl Hc)) as (new0 & E & Hprog & _).
    rewrite E in Hrun. injection Hrun as <- <-. simpl in Htr.
    apply app_inv_head in Htr. subst new0. rewrite Hprog. constructor.
Qed.




(** ** No bound on the iterations *)

Section Stall.
Variable int : str -> option Z.
Variable http : nat -> str -> option Response.
Variable self : EMLOCrawler.t.
Hypothesis collection_set : EMLOCrawler.assert_collection_set self = Return tt.

(** Every page is served, has no data row and reports a positive total. *)
Hypothesis stalls :
  forall k url,
  exists response total,
    http k url = Some response
    /\ status_code response = 200%Z
    /\ (forall w,
           EMLOCrawler.parse_results_page int self (content response) w
           = (Done (Return {| EMLOCrawler.total_results := total;
                              EMLOCrawler.parsed_results := [] |}), w))
    /\ (0 < total)%Z.

Lemma loop_body_stalls w :
  exists w',
    EMLOCrawler.loop_body int http self false [] w
    = (Done (Return (false, [])), w')
    /\ sent w' = S (sent w).
Proof.
  destruct (stalls (sent w) (url_for self 0))
    as (response & total & Hhttp & Hstatus & Hpage & Hpos).
  unfold EMLOCrawler.loop_body, EMLOCrawler.get_results_page, bind_io,
    print, pure.
  rewrite collection_set, (make_results_page_url_set self collection_set).
  simpl.
  unfold get_results_page, bind_io, get_wait_url. simpl.
  rewrite Hhttp.
  destruct (decide (status_code response ≠ 200%Z)) as [Hs|Hs];
    [contradiction|].
  unfold ret. rewrite Hpage. simpl.
  change (Z.of_nat 0) with 0%Z.
  destruct (0 >=? total)%Z eqn:Hge; [apply Z.geb_le in Hge; lia|].
  eexists. split; reflexivity.
Qed.

Lemma while_not_finished_stalls fuel :
  forall w,
  exists w',
    EMLOCrawler.while_not_finished int http fuel self false [] w
    = (OutOfFuel, w')
    /\ sent w' = (sent w + fuel)%nat.
Proof.
  induction fuel as [|fuel IH]; intros w; simpl.
  - exists w. split; [reflexivity|lia].
  - unfold bind_io. destruct (loop_body_stalls w) as (w1 & -> & Hsent).
    simpl. destruct (IH w1) as (w' & -> & Hsent').
    exists w'. split; [reflexivity|lia].
Qed.
End Stall.

(** C3. The loop has no bound of its own: against a server whose every
    page has no data row and reports a positive total, the crawl is still
    in the loop after any number of iterations, one request for each. *)
Theorem crawl_collection_no_iteration_bound
    (int : str -> option Z) (http : nat -> str -> option Response)
    (self : EMLOCrawler.t) (collection_info : gmap str str) (c s : str) :
  collection_info !! u "collection_name" = Some c ->
  collection_info !! u "search_name" = Some s ->
  (forall k url,
    exists response total,
      http k url = Some response
      /\ status_code response = 200%Z
      /\ (forall w,
             EMLOCrawler.parse_results_page int
               (EMLOCrawler.set_collection self c s) (content response) w
             = (Done (Return {| EMLOCrawler.total_results := total;
                                EMLOCrawler.parsed_results := [] |}), w))
      /\ (0 < total)%Z) ->
  forall fuel w,
  exists w',
    EMLOCrawler.crawl_collection int http fuel self collection_info w
    = (OutOfFuel, w')
    /\ sent w' = (sent w + fuel)%nat.
Proof.
  intros Hc Hs Hstalls fuel w.
  rewrite (crawl_collection_loop int http self collection_info fuel w c s
             Hc Hs).
  destruct (while_not_finished_stalls int http
              (EMLOCrawler.set_collection self c s) eq_refl Hstalls fuel
              {| sent := sent w;
                 trace := trace w ++ [Print (crawling_collection c)] |})
    as (w' & E & Hsent).
  exists w'. split; [exact E|exact Hsent].
Qed.

Lemma crawl_collection_no_iteration_bound_witness :
  exists w',
    EMLOCrawler.crawl_collection int_decimal (Sample.constant 0 5) 1000
      EMLOCrawler.init Sample.scaliger Sample.start
    = (OutOfFuel, w')
    /\ sent w' = (sent Sample.start + 1000)%nat.
Proof.
  apply (crawl_collection_no_iteration_bound int_decimal (Sample.constant 0 5)
           EMLOCrawler.init Sample.scaliger
           (u "Scaliger, Joseph Justus") (u "Scaliger%2C+Joseph+Justus")).
  - reflexivity.
  - reflexivity.
  - intros k url.
    exists {| status_code := 200; content := Sample.page 0 0 5 |}, 5%Z.
    split; [reflexivity|]. split; [reflexivity|].
    split; [intros w; reflexivity|lia].
Defined.

(** ** The start offset *)

Lemma requests_block l url evs :
  requests (Print l :: HttpGet url :: evs) = url :: requests evs.
Proof. reflexivity. Qed.

Lemma progress_block start_num url evs :
  progress (Print (retrieving_results_starting_from start_num)
              :: HttpGet url :: evs)
  = progress evs.
Proof. reflexivity. Qed.

(** How many requests a run of the loop sent, by its outcome: one for
    each page counted; one more when an iteration raised; as many as
    iterations were allowed when the loop is still running. *)
Lemma while_not_finished_counts int http self :
  EMLOCrawler.assert_collection_set self = Return tt ->
  forall fuel emlo_docs w out w',
    EMLOCrawler.while_not_finished int http fuel self false emlo_docs w
    = (out, w') ->
    exists new,
      trace w' = trace w ++ new
      /\ match out with
         | Done (Return _) =>
             length (requests new) = length (progress new)
             /\ (1 <= length (progress new))%nat
         | Done (Raise _) => length (requests new) = S (length (progress new))
         | OutOfFuel =>
             length (requests new) = fuel /\ length (progress new) = fuel
         end.
Proof.
  intros Hset.
  induction fuel as [|fuel IH]; intros emlo_docs w out w' Hrun.
  - simpl in Hrun. injection Hrun as <- <-.
    exists []. rewrite app_nil_r. auto.
  - simpl in Hrun. unfold bind_io in Hrun.
    destruct (loop_body_run int http self Hset false emlo_docs w)
      as (r & w1 & evs & E & Htr & _ & Hreq & Hr).
    rewrite E in Hrun.
    destruct r as [[fin emlo_docs']|e].
    + destruct Hr as (response & rows & page & total & _ & _ & _ & _ & _
                      & Hprog & _).
      simpl in Hrun. destruct fin.
      * rewrite (while_finished int http self) in Hrun.
        injection Hrun as <- <-.
        eexists. split; [exact Htr|].
        rewrite requests_block, progress_block, Hreq, Hprog. simpl. lia.
      * destruct (IH _ _ _ _ Hrun) as (new' & Htr' & Hcount).
        exists ((Print (retrieving_results_starting_from (length emlo_docs))
                   :: HttpGet (url_for self (length emlo_docs)) :: evs)
                  ++ new').
        split; [rewrite Htr', Htr, <- app_assoc; reflexivity|].
        unfold requests, progress in *. rewrite !omap_app.
        fold (requests (Print (retrieving_results_starting_from
                                 (length emlo_docs))
                          :: HttpGet (url_for self (length emlo_docs)) :: evs)).
        fold (progress (Print (retrieving_results_starting_from
                                 (length emlo_docs))
                          :: HttpGet (url_for self (length emlo_docs)) :: evs)).
        rewrite requests_block, progress_block.
        unfold requests, progress. rewrite Hreq, Hprog, !length_app.
        simpl. destruct out as [[?|?]|]; lia.
    + injection Hrun as <- <-.
      eexists. split; [exact Htr|].
      rewrite requests_block, progress_block, Hreq, Hr. reflexivity.
Qed.

(** C4. With the collection set from [collection_info]: each iteration
    requests one page, at the offset [len(emlo_docs)]; the URL ends in
    [&start=] and the decimal numeral of the offset. Over the crawl the
    requests are sent, one for each page counted (one more when an
    iteration raised), request [k] at the count reached after iteration
    [k - 1]: the first at offset 0, and, after a first page of [count]
    records that did not reach its total, the second at offset [count]. *)
Theorem crawl_collection_start_offset
    (int : str -> option Z) (http : nat -> str -> option Response)
    (fuel : nat) (self : EMLOCrawler.t) (collection_info : gmap str str)
    (c s : str) (w : io) :
  collection_info !! u "collection_name" = Some c ->
  collection_info !! u "search_name" = Some s ->
  let crawler := EMLOCrawler.set_collection self c s in
  let run :=
    EMLOCrawler.crawl_collection int http fuel self collection_info w in
  (forall crawl_finished emlo_docs w1,
      exists evs,
        trace (snd (EMLOCrawler.loop_body int http crawler crawl_finished
                      emlo_docs w1))
        = trace w1
            ++ Print (retrieving_results_starting_from (length emlo_docs))
            :: HttpGet (url_for crawler (length emlo_docs)) :: evs
        /\ requests evs = [])
  /\ (forall start_num,
         EMLOCrawler.make_results_page_url crawler start_num
         = Return (EMLOCrawler.base_url self ++ u "?col_cat=" ++ s
                     ++ u "&start=" ++ str_of_nat start_num)
         /\ nat_of_str (str_of_nat start_num) = Some start_num)
  /\ (exists new,
         trace (snd run) = trace w ++ new
         /\ requests new
            = map (url_for crawler)
                (take (length (requests new)) (0%nat :: map fst (progress new)))
         /\ (forall count total rest url,
                progress new = (count, total) :: rest ->
                requests new !! 1%nat = Some url ->
                url = url_for crawler count)
         /\ match fst run with
            | Done (Return _) =>
                length (requests new) = length (progress new)
                /\ (1 <= length (progress new))%nat
            | Done (Raise _) =>
                length (requests new) = S (length (progress new))
            | OutOfFuel =>
                length (requests new) = fuel /\ length (progress new) = fuel
            end
         /\ ((1 <= fuel)%nat ->
             requests new !! 0%nat = Some (url_for crawler 0))
         /\ (forall count total rest,
                (2 <= fuel)%nat ->
                progress new = (count, total) :: rest ->
                (Z.of_nat count < total)%Z ->
                requests new !! 1%nat = Some (url_for crawler count))).
Proof.
  intros Hc Hs crawler run.
  split.
  { intros crawl_finished emlo_docs w1.
    destruct (loop_body_run int http crawler eq_refl crawl_finished
                emlo_docs w1) as (r & w' & evs & -> & Htr & _ & Hreq & _).
    exists evs. split; assumption. }
  split.
  { intros start_num. split; [reflexivity|apply nat_of_str_of_nat]. }
  pose proof (crawl_collection_run int http self collection_info fuel w c s
                Hc Hs) as Hsum.
  pose proof (crawl_collection_loop int http self collection_info fuel w c s
                Hc Hs) as Hloop.
  fold run in Hsum, Hloop.
  destruct run as [out w'] eqn:Hrun. simpl fst. simpl snd.
  destruct (while_not_finished_counts int http crawler eq_refl fuel [] _ out w'
              (eq_sym Hloop)) as (new1 & Htr1 & Hcount).
  simpl in Htr1. rewrite <- app_assoc in Htr1. simpl in Htr1.
  assert (exists new,
             trace w' = trace w ++ new
             /\ requests new
                = map (url_for crawler)
                    (take (length (requests new))
                       (0%nat :: map fst (progress new)))
             /\ (forall emlo_docs,
                    out = Done (Return emlo_docs) ->
                    exists before total,
                      progress new = before ++ [(length emlo_docs, total)]
                      /\ (total <= Z.of_nat (length emlo_docs))%Z))
    as (new & Htr & Hreq & Hlast).
  { destruct out as [[emlo_docs|e]|];
      destruct Hsum as (new & Htr & _ & Hsum); exists new;
      (split; [exact Htr|]); (split; [apply Hsum|]);
      try discriminate.
    intros emlo_docs' [= <-].
    destruct Hsum as ((before & total & Hprog & _ & Hge) & _). eauto. }
  assert (new = Print (crawling_collection c) :: new1) as Hnew
    by (apply (app_inv_head (trace w)); congruence).
  assert (requests new = requests new1) as Er by (rewrite Hnew; reflexivity).
  assert (progress new = progress new1) as Ep by (rewrite Hnew; reflexivity).
  rewrite <- Er, <- Ep in Hcount.
  exists new. split; [exact Htr|]. split; [exact Hreq|].
  split.
  { intros count total rest url Hprog Hsecond.
    rewrite Hreq, Hprog in Hsecond.
    destruct (length (requests new)) as [|[|k]]; simpl in Hsecond;
      try discriminate.
    congruence. }
  split; [exact Hcount|].
  split.
  { intros Hfuel.
    assert (1 <= length (requests new))%nat as Hk
      by (destruct out as [[?|?]|]; lia).
    rewrite Hreq.
    destruct (length (requests new)) as [|k]; [lia|]. reflexivity. }
  intros count total rest Hfuel Hprog Hbelow.
  assert (2 <= length (requests new))%nat as Hk.
  { destruct out as [[emlo_docs|e]|].
    - destruct (Hlast emlo_docs eq_refl) as (before & total' & Hprog' & Hge).
      rewrite Hprog in Hprog'.
      destruct before as [|p before].
      + injection Hprog' as -> -> _. lia.
      + destruct Hcount as [-> _]. rewrite Hprog, Hprog'.
        rewrite length_app. simpl. lia.
    - rewrite Hcount, Hprog. simpl. lia.
    - lia. }
  rewrite Hreq, Hprog.
  destruct (length (requests new)) as [|[|k]]; [lia|lia|]. reflexivity.
Qed.

Lemma crawl_collection_start_offset_witness :
  let run := Sample.crawl (Sample.paged 12 10) 5 in
  requests (trace (snd run)) !! 0%nat
  = Some (u "http://emlo.bodleian.ox.ac.uk/forms/advanced?col_cat=Scaliger%2C+Joseph+Justus&start=0")
  /\ requests (trace (snd run)) !! 1%nat
     = Some (u "http://emlo.bodleian.ox.ac.uk/forms/advanced?col_cat=Scaliger%2C+Joseph+Justus&start=10").
Proof.
  intros run.
  destruct (proj2 (proj2 (crawl_collection_start_offset int_decimal
                            (Sample.paged 12 10) 5 EMLOCrawler.init
                            Sample.scaliger (u "Scaliger, Joseph Justus")
                            (u "Scaliger%2C+Joseph+Justus") Sample.start
                            eq_refl eq_refl)))
    as (new & Htr & _ & _ & _ & Hfirst & Hsecond).
  change (trace Sample.start ++ new) with new in Htr.
  fold (Sample.crawl (Sample.paged 12 10) 5) in Htr. fold run in Htr.
  rewrite Htr. split.
  - rewrite Hfirst by lia. reflexivity.
  - rewrite (Hsecond 10%nat 12%Z [(12%nat, 12%Z)]).
    + reflexivity.
    + lia.
    + rewrite <- Htr. vm_compute. reflexivity.
    + lia.
Defined.

(** The scenarios of the specification: five records on one page; twelve
    records on two pages, the second asked for at offset 10. *)
Example single_page_scenario :
  let run := Sample.crawl (Sample.paged 5 10) 1 in
  length (Sample.returned (fst run)) = 5%nat
  /\ progress (trace (snd run)) = [(5%nat, 5%Z)]
  /\ sent (snd run) = 1%nat.
Proof. vm_compute. repeat split. Qed.

Example two_page_scenario :
  let run := Sample.crawl (Sample.paged 12 10) 2 in
  length (Sample.returned (fst run)) = 12%nat
  /\ progress (trace (snd run)) = [(10%nat, 12%Z); (12%nat, 12%Z)]
  /\ requests (trace (snd run))
     = [u "http://emlo.bodleian.ox.ac.uk/forms/advanced?col_cat=Scaliger%2C+Joseph+Justus&start=0";
        u "http://emlo.bodleian.ox.ac.uk/forms/advanced?col_cat=Scaliger%2C+Joseph+Justus&start=10"].
Proof. vm_compute. repeat split. Qed.

(** ** Instances *)

Lemma unparsable_result_num_aborts_witness :
  exists e,
    EMLOCrawler.make_emlo_doc int_decimal EMLOCrawler.init
      (Sample.data_row_with (u "abc")) Sample.headers
    = Raise e
    /\ (forall doc_id,
           get_result_identifier (Sample.data_row_with (u "abc"))
           = Return doc_id ->
           e = ValueError).
Proof.
  refine (proj1 (proj2 (unparsable_result_num_aborts int_decimal
                          (Sample.data_row_with (u "abc")) Sample.headers
                          (Sample.dict (Sample.data_row_with (u "abc")))
                          (u "abc") _ _ _)) EMLOCrawler.init).
  - vm_compute. reflexivity.
  - vm_compute. reflexivity.
  - vm_compute. reflexivity.
Defined.

Lemma get_results_page_status_witness :
  get_results_page (fun _ _ => Some {| status_code := 404;
                                       content := Sample.page 0 0 0 |})
    (u "http://emlo.bodleian.ox.ac.uk/") Sample.start
  = (Done (Raise RequestException),
     {| sent := 1;
        trace := [HttpGet (u "http://emlo.bodleian.ox.ac.uk/"); Sleep] |})
  /\ get_results_page (Sample.constant 0 0)
       (u "http://emlo.bodleian.ox.ac.uk/") Sample.start
     = (Done (Return (Sample.page 0 0 0)),
        {| sent := 1;
           trace := [HttpGet (u "http://emlo.bodleian.ox.ac.uk/"); Sleep] |}).
Proof.
  split.
  - apply (get_results_page_status
             (fun _ _ => Some {| status_code := 404;
                                 content := Sample.page 0 0 0 |})
             (u "http://emlo.bodleian.ox.ac.uk/") Sample.start
             {| status_code := 404; content := Sample.page 0 0 0 |}
             eq_refl).
    simpl. lia.
  - apply (get_results_page_status (Sample.constant 0 0)
             (u "http://emlo.bodleian.ox.ac.uk/") Sample.start
             {| status_code := 200; content := Sample.page 0 0 0 |}
             eq_refl).
    reflexivity.
Defined.



(** * Further properties of the record extractor *)

(** ** What cleaning removes and what it keeps *)

Lemma lstrip_split s :
  exists spaces, s = spaces ++ lstrip s /\ Forall space spaces.
Proof.
  induction s as [|c s (spaces & IH & Hspaces)]; simpl.
  - exists []. split; [reflexivity|constructor].
  - destruct (isspace c) eqn:E.
    + exists (c :: spaces). simpl. split; [congruence|].
      constructor; assumption.
    + exists []. split; [reflexivity|constructor].
Qed.

Lemma rstrip_split s :
  exists spaces, s = rstrip s ++ spaces /\ Forall space spaces.
Proof.
  unfold rstrip. destruct (lstrip_split (rev s)) as (spaces & E & Hspaces).
  exists (rev spaces). split.
  - rewrite <- rev_app_distr, <- E, rev_involutive. reflexivity.
  - apply List.Forall_rev, Hspaces.
Qed.

Lemma strip_no_trail s : no_lead (rev (strip s)).
Proof.
  unfold strip, rstrip. rewrite rev_involutive. apply lstrip_no_lead.
Qed.

Lemma strip_fixed s : no_lead s -> no_lead (rev s) -> strip s = s.
Proof.
  intros Hl Hr. unfold strip, rstrip.
  rewrite (lstrip_fixed s Hl), (lstrip_fixed (rev s) Hr).
  apply rev_involutive.
Qed.

(** X1. The cleaned text of a cell holds no bullet and has no whitespace
    at either end. *)
Theorem clean_cell_content_is_clean (cell : Cell) :
  Forall (fun c => c <> bullet) (clean_cell_content cell)
  /\ no_lead (clean_cell_content cell)
  /\ no_lead (rev (clean_cell_content cell)).
Proof.
  unfold clean_cell_content. split; [|split].
  - apply strip_Forall, remove_char_Forall.
  - apply rstrip_no_lead, lstrip_no_lead.
  - apply strip_no_trail.
Qed.

(** X2. Cleaning leaves a cell text as it is exactly when the text holds no
    bullet and has no whitespace at either end. *)
Theorem clean_cell_content_fixed_iff (cell : Cell) :
  clean_cell_content cell = text cell
  <-> Forall (fun c => c <> bullet) (text cell)
      /\ no_lead (text cell)
      /\ no_lead (rev (text cell)).
Proof.
  split.
  - intros E. rewrite <- E. unfold clean_cell_content. split; [|split].
    + apply strip_Forall, remove_char_Forall.
    + apply rstrip_no_lead, lstrip_no_lead.
    + apply strip_no_trail.
  - intros (Hb & Hl & Hr). unfold clean_cell_content.
    rewrite remove_char_absent by exact Hb. apply strip_fixed; assumption.
Qed.

(** X3. Cleaning deletes the bullets and then only whitespace at the two
    ends: the text without its bullets is the cleaned text between two runs
    of whitespace, so that whitespace inside the text is kept. *)
Theorem clean_cell_content_trims (cell : Cell) :
  exists front back,
    remove_char bullet (text cell)
    = front ++ clean_cell_content cell ++ back
    /\ Forall space front
    /\ Forall space back.
Proof.
  unfold clean_cell_content, strip.
  destruct (lstrip_split (remove_char bullet (text cell)))
    as (front & Ef & Hf).
  destruct (rstrip_split (lstrip (remove_char bullet (text cell))))
    as (back & Eb & Hb).
  exists front, back. split; [|split; assumption].
  rewrite <- Eb. exact Ef.
Qed.

(** ** The header row, in full *)

(** X4. [parse_results_header] returns exactly for a header row with two
    or more cells; with fewer it raises [IndexError], and it raises nothing
    else. *)
Theorem parse_results_header_returns_iff (header_row : Row) :
  ((exists headers, parse_results_header header_row = Return headers)
   <-> (2 <= length (ths header_row))%nat)
  /\ (parse_results_header header_row = Raise IndexError
      <-> (length (ths header_row) < 2)%nat)
  /\ (forall e, parse_results_header header_row = Raise e -> e = IndexError).
Proof.
  unfold parse_results_header.
  destruct (ths header_row) as [|a [|b rest]]; simpl.
  - split; [split; [intros [? [=]]|lia]|].
    split; [split; [lia|reflexivity]|]. intros e [= <-]. reflexivity.
  - split; [split; [intros [? [=]]|lia]|].
    split; [split; [lia|reflexivity]|]. intros e [= <-]. reflexivity.
  - split; [split; [lia|eauto]|].
    split; [split; [discriminate|lia]|]. discriminate.
Qed.

(** ** The identifier, in full *)

Lemma split_char_cons c x s :
  split [c] (x :: s)
  = if c =? x then [] :: split [c] s
    else match split [c] s with
         | w :: ws => (x :: w) :: ws
         | [] => [[x]]
         end.
Proof.
  unfold split. simpl. destruct (c =? x); reflexivity.
Qed.

Lemma split_char_length c s :
  length (split [c] s) = S (count_occ N.eq_dec s c).
Proof.
  induction s as [|x s IH]; [reflexivity|].
  rewrite split_char_cons. destruct (N.eqb_spec c x) as [<-|Hne].
  - rewrite count_occ_cons_eq by reflexivity. simpl. rewrite IH. reflexivity.
  - rewrite count_occ_cons_neq by congruence.
    destruct (split [c] s); simpl in *; [discriminate|exact IH].
Qed.

(** The pieces of a split hold what the text holds, less the separator. *)
Lemma split_char_Forall (P : char -> Prop) c s :
  Forall P s -> Forall (Forall (fun x => P x /\ x <> c)) (split [c] s).
Proof.
  induction 1 as [|x s Hx Hs IH].
  - repeat constructor.
  - rewrite split_char_cons. destruct (N.eqb_spec c x) as [<-|Hne].
    + constructor; [constructor|exact IH].
    + destruct (split [c] s) as [|w ws]; [repeat constructor; auto|].
      inversion IH; subst. constructor; [|assumption].
      constructor; [split; [assumption|congruence]|assumption].
Qed.

Lemma truncate_at_Forall c s : Forall (fun x => x <> c) (truncate_at c s).
Proof.
  induction s as [|x s IH]; simpl; [constructor|].
  destruct (N.eqb_spec c x); constructor; [congruence|exact IH].
Qed.

(** X5. An identifier that [get_result_identifier] returns holds neither
    '/' nor '?'. *)
Theorem get_result_identifier_no_separator (results_row : Row) (doc_id : str) :
  get_result_identifier results_row = Return doc_id ->
  Forall (fun c => c <> 47 /\ c <> 63) doc_id.
Proof.
  unfold get_result_identifier, getitem.
  destruct (tds results_row !! 1%nat) as [td|]; simpl; [|discriminate].
  destruct (subscript_href (head (anchors td))) as [url|e]; simpl;
    [|discriminate].
  change (u "?") with [63]. rewrite split_char_head. simpl.
  destruct (split (u "/") (truncate_at 63 url) !! 3%nat) as [part|] eqn:E;
    simpl; [|discriminate].
  intros [= <-].
  pose proof (split_char_Forall (fun x => x <> 63) 47 _
                (truncate_at_Forall 63 url)) as H.
  change (u "/") with [47] in E.
  rewrite Forall_lookup in H. specialize (H _ _ E).
  eapply Forall_impl; [exact H|]. simpl. tauto.
Qed.

Lemma get_result_identifier_no_separator_witness :
  Forall (fun c => c <> 47 /\ c <> 63) (u "DOC123").
Proof.
  apply (get_result_identifier_no_separator (Sample.data_row 1)).
  reflexivity.
Defined.

(** X6. For a row whose second cell holds a link with an href, an
    identifier is returned exactly when the href has three or more '/'
    before its first '?'; otherwise the call raises [IndexError]. *)
Theorem get_result_identifier_returns_iff
    (results_row : Row) (td : Cell) (a : Anchor) (url : str) :
  tds results_row !! 1%nat = Some td ->
  head (anchors td) = Some a ->
  href a = Some url ->
  ((exists doc_id, get_result_identifier results_row = Return doc_id)
   <-> (3 <= slashes url)%nat)
  /\ (get_result_identifier results_row = Raise IndexError
      <-> (slashes url < 3)%nat).
Proof.
  intros Htd Ha Hurl.
  unfold get_result_identifier, getitem, slashes.
  rewrite Htd. simpl. rewrite Ha. simpl. rewrite Hurl. simpl.
  change (u "?") with [63]. rewrite split_char_head. simpl.
  change (u "/") with [47].
  pose proof (split_char_length 47 (truncate_at 63 url)) as Hlen.
  destruct (split [47] (truncate_at 63 url) !! 3%nat) as [part|] eqn:E; simpl.
  - apply lookup_lt_Some in E.
    split; [split; [lia|eauto]|split; [discriminate|lia]].
  - apply lookup_ge_None in E.
    split; [split; [intros [? [=]]|lia]|split; [lia|reflexivity]].
Qed.

Lemma get_result_identifier_returns_iff_witness :
  get_result_identifier
    {| ths := [];
       tds := [Sample.cell "1"; Sample.link "Letter" "/profile/DOC123"] |}
  = Raise IndexError.
Proof.
  refine (proj2 (proj2 (get_result_identifier_returns_iff _
                          (Sample.link "Letter" "/profile/DOC123")
                          {| href := Some (u "/profile/DOC123") |}
                          (u "/profile/DOC123") _ _ _)) _);
    [reflexivity..|].
  vm_compute. lia.
Defined.

(** ** From a row to a record *)

(** A name that is no header keeps what the dictionary had for it. *)
Lemma dict_of_row_other cells headers :
  forall hi doc0 doc k,
    dict_of_row cells hi headers doc0 = Return doc ->
    k ∉ headers ->
    doc !! k = doc0 !! k.
Proof.
  induction headers as [|header rest IH]; intros hi doc0 doc k; simpl.
  - intros [= <-] _. reflexivity.
  - unfold getitem. destruct (cells !! hi) as [cell|]; simpl; [|discriminate].
    intros H Hk. apply not_elem_of_cons in Hk as [Hne Hk].
    rewrite (IH _ _ _ _ H Hk). apply lookup_insert_ne. congruence.
Qed.

(** Of the columns with one name the last one counts. *)
Lemma dict_of_row_last cells headers :
  forall hi doc0 doc before k after,
    dict_of_row cells hi headers doc0 = Return doc ->
    headers = before ++ k :: after ->
    k ∉ after ->
    doc !! k = cells !! (hi + length before)%nat
    /\ is_Some (doc !! k).
Proof.
  induction headers as [|header rest IH];
    intros hi doc0 doc before k after Hrun Hsplit Hk.
  - destruct before; discriminate.
  - simpl in Hrun. unfold getitem in Hrun.
    destruct (cells !! hi) as [cell|] eqn:Hcell; simpl in Hrun;
      [|discriminate].
    destruct before as [|b before]; simpl in Hsplit.
    + injection Hsplit as -> ->.
      rewrite (dict_of_row_other _ _ _ _ _ _ Hrun Hk), lookup_insert_eq.
      simpl length. rewrite Nat.add_0_r, Hcell. eauto.
    + injection Hsplit as -> ->.
      destruct (IH _ _ _ _ _ _ Hrun eq_refl Hk) as [E HS].
      split; [|exact HS]. rewrite E. simpl. f_equal. lia.
Qed.

Lemma dict_of_row_short cells headers :
  forall hi doc0,
    (length cells < hi + length headers)%nat ->
    headers <> [] ->
    dict_of_row cells hi headers doc0 = Raise IndexError.
Proof.
  induction headers as [|header rest IH]; intros hi doc0 Hlen Hne;
    [congruence|].
  simpl. unfold getitem.
  destruct (cells !! hi) as [cell|] eqn:Hcell; simpl; [|reflexivity].
  apply lookup_lt_Some in Hcell.
  destruct rest as [|h rest]; [simpl in Hlen; lia|].
  apply IH; [simpl in *; lia|discriminate].
Qed.

Lemma dict_of_row_long cells headers :
  forall hi doc0 doc,
    dict_of_row cells hi headers doc0 = Return doc ->
    headers = [] \/ (hi + length headers <= length cells)%nat.
Proof.
  intros hi doc0 doc H. destruct headers as [|h rest]; [auto|right].
  destruct (Nat.le_gt_cases (hi + length (h :: rest)) (length cells))
    as [Hle|Hgt]; [exact Hle|].
  rewrite dict_of_row_short in H by (auto; discriminate). discriminate.
Qed.

(** What a record holds when [set_properties] returns it. *)
Lemma set_properties_fields int self doc emlo_doc :
  EMLODoc.set_properties int self doc = Return emlo_doc ->
  (exists field n,
      doc !! u "Result_num" = Some field /\ int field = Some n
      /\ EMLODoc.result_num emlo_doc = Some n)
  /\ EMLODoc.collection_name emlo_doc = EMLODoc.collection_name self
  /\ EMLODoc.id emlo_doc = doc !! u "doc_id"
  /\ is_Some (doc !! u "doc_id")
  /\ Forall (fun column =>
               snd column emlo_doc = doc !! fst column
               /\ is_Some (doc !! fst column)) columns.
Proof.
  unfold EMLODoc.set_properties, getkey, EMLODoc.int_of.
  destruct (doc !! u "Result_num") as [field|]; simpl; [|discriminate].
  destruct (int field) as [n|] eqn:Hint; simpl; [|discriminate].
  destruct (doc !! u "doc_id") as [v0|]; simpl; [|discriminate].
  destruct (doc !! u "Doc_type") as [v1|] eqn:E1; simpl; [|discriminate].
  destruct (doc !! u "Date") as [v2|] eqn:E2; simpl; [|discriminate].
  destruct (doc !! u "Author") as [v3|] eqn:E3; simpl; [|discriminate].
  destruct (doc !! u "Origin") as [v4|] eqn:E4; simpl; [|discriminate].
  destruct (doc !! u "Addressee") as [v5|] eqn:E5; simpl; [|discriminate].
  destruct (doc !! u "Destination") as [v6|] eqn:E6; simpl; [|discriminate].
  destruct (doc !! u "Repositories & Versions") as [v7|] eqn:E7; simpl;
    [|discriminate].
  intros [= <-]. simpl.
  split; [eauto|]. split; [reflexivity|]. split; [reflexivity|].
  split; [eauto|].
  unfold columns.
  repeat (constructor; [simpl; split; [congruence|eauto]|]).
  constructor.
Qed.

(** The steps of [make_emlo_doc] that a returned record went through. *)
Lemma make_emlo_doc_steps int self results_row headers emlo_doc :
  EMLOCrawler.make_emlo_doc int self results_row headers = Return emlo_doc ->
  exists doc doc_id,
    dict_of_row (map clean_cell_content (tds results_row)) 0 headers ∅
    = Return doc
    /\ get_result_identifier results_row = Return doc_id
    /\ EMLODoc.set_properties int
         (EMLODoc.init (EMLOCrawler.collection_name self))
         (<[u "doc_id" := doc_id]> doc)
       = Return emlo_doc.
Proof.
  unfold EMLOCrawler.make_emlo_doc.
  destruct (dict_of_row (map clean_cell_content (tds results_row)) 0 headers ∅)
    as [doc|e]; simpl; [|discriminate].
  destruct (get_result_identifier results_row) as [doc_id|e]; simpl;
    [|discriminate].
  eauto.
Qed.

Lemma column_not_doc_id column :
  column ∈ columns -> fst column <> u "doc_id".
Proof.
  unfold columns. intros H.
  repeat (apply elem_of_cons in H as [->|H]; [vm_compute; discriminate|]).
  inversion H.
Qed.

(** X7. What a row needs to give a record: [make_emlo_doc] returns only
    when [Result_num] and the seven text columns are among the headers
    and the row has a cell for every header. *)
Theorem make_emlo_doc_needs_columns
    (int : str -> option Z) (self : EMLOCrawler.t) (results_row : Row)
    (headers : list str) (emlo_doc : EMLODoc.t) :
  EMLOCrawler.make_emlo_doc int self results_row headers = Return emlo_doc ->
  u "Result_num" ∈ headers
  /\ Forall (fun column => fst column ∈ headers) columns
  /\ (length headers <= length (tds results_row))%nat.
Proof.
  intros H.
  destruct (make_emlo_doc_steps _ _ _ _ _ H) as (doc & doc_id & Hdoc & _ & Hset).
  destruct (set_properties_fields _ _ _ _ Hset)
    as ((field & n & Hfield & _) & _ & _ & _ & Hcols).
  assert (forall k, k <> u "doc_id" ->
                    is_Some (<[u "doc_id" := doc_id]> doc !! k) ->
                    k ∈ headers) as Hin.
  { intros k Hk HS. rewrite lookup_insert_ne in HS by congruence.
    destruct (decide (k ∈ headers)) as [|Hout]; [assumption|].
    rewrite (dict_of_row_other _ _ _ _ _ _ Hdoc Hout), lookup_empty in HS.
    destruct HS; discriminate. }
  split; [apply Hin; [vm_compute; discriminate|rewrite Hfield; eauto]|].
  split.
  - rewrite Forall_forall in *. intros column Hcolumn.
    apply Hin; [apply column_not_doc_id, Hcolumn|apply Hcols, Hcolumn].
  - destruct (dict_of_row_long _ _ _ _ _ Hdoc) as [->|Hlen]; [simpl; lia|].
    rewrite length_map in Hlen. exact Hlen.
Qed.

Lemma make_emlo_doc_needs_columns_witness :
  u "Result_num" ∈ Sample.headers
  /\ Forall (fun column => fst column ∈ Sample.headers) columns
  /\ (length Sample.headers <= length (tds (Sample.data_row 7)))%nat.
Proof.
  apply (make_emlo_doc_needs_columns int_decimal EMLOCrawler.init
           (Sample.data_row 7) Sample.headers
           (match EMLOCrawler.make_emlo_doc int_decimal EMLOCrawler.init
                    (Sample.data_row 7) Sample.headers with
            | Return emlo_doc => emlo_doc
            | Raise _ => EMLODoc.init None
            end)).
  vm_compute. reflexivity.
Defined.

(** X8. The identifier of a record is the one read from the link of the
    row, also when a column is named [doc_id], and its collection is the
    crawler's. *)
Theorem make_emlo_doc_identity
    (int : str -> option Z) (self : EMLOCrawler.t) (results_row : Row)
    (headers : list str) (emlo_doc : EMLODoc.t) :
  EMLOCrawler.make_emlo_doc int self results_row headers = Return emlo_doc ->
  get_result_identifier results_row = Return (default [] (EMLODoc.id emlo_doc))
  /\ is_Some (EMLODoc.id emlo_doc)
  /\ EMLODoc.collection_name emlo_doc = EMLOCrawler.collection_name self.
Proof.
  intros H.
  destruct (make_emlo_doc_steps _ _ _ _ _ H) as (doc & doc_id & _ & Hid & Hset).
  destruct (set_properties_fields _ _ _ _ Hset) as (_ & Hcn & Hi & _).
  rewrite lookup_insert_eq in Hi. rewrite Hi. simpl.
  split; [exact Hid|]. split; [eauto|exact Hcn].
Qed.

Lemma make_emlo_doc_identity_witness :
  let results_row := Sample.data_row 7 in
  let headers := Sample.headers ++ [u "doc_id"] in
  let results_row' :=
    {| ths := []; tds := tds results_row ++ [Sample.cell "other"] |} in
  let emlo_doc :=
    match EMLOCrawler.make_emlo_doc int_decimal EMLOCrawler.init
            results_row' headers with
    | Return emlo_doc => emlo_doc
    | Raise _ => EMLODoc.init None
    end in
  get_result_identifier results_row'
  = Return (default [] (EMLODoc.id emlo_doc))
  /\ is_Some (EMLODoc.id emlo_doc)
  /\ EMLODoc.collection_name emlo_doc
     = EMLOCrawler.collection_name EMLOCrawler.init.
Proof.
  intros results_row headers results_row' emlo_doc.
  apply (make_emlo_doc_identity int_decimal EMLOCrawler.init results_row'
           headers emlo_doc).
  vm_compute. reflexivity.
Defined.

(** X9. A text attribute of a record is the cleaned text of the cell under
    the header of its column, the last one when several headers have that
    name. *)
Theorem make_emlo_doc_column
    (int : str -> option Z) (self : EMLOCrawler.t) (results_row : Row)
    (headers : list str) (emlo_doc : EMLODoc.t)
    (column : str * (EMLODoc.t -> option str)) (before after : list str) :
  EMLOCrawler.make_emlo_doc int self results_row headers = Return emlo_doc ->
  column ∈ columns ->
  headers = before ++ fst column :: after ->
  fst column ∉ after ->
  snd column emlo_doc
  = clean_cell_content <$> tds results_row !! length before
  /\ is_Some (snd column emlo_doc).
Proof.
  intros H Hcolumn Hsplit Hlast.
  destruct (make_emlo_doc_steps _ _ _ _ _ H) as (doc & doc_id & Hdoc & _ & Hset).
  destruct (set_properties_fields _ _ _ _ Hset) as (_ & _ & _ & _ & Hcols).
  rewrite Forall_forall in Hcols. destruct (Hcols _ Hcolumn) as [E HS].
  rewrite lookup_insert_ne in E by (apply not_eq_sym, column_not_doc_id, Hcolumn).
  destruct (dict_of_row_last _ _ _ _ _ _ _ _ Hdoc Hsplit Hlast) as [E' _].
  simpl in E'. rewrite E, E'. split.
  - apply list_lookup_fmap.
  - rewrite <- E', <- E.
    rewrite lookup_insert_ne in HS
      by (apply not_eq_sym, column_not_doc_id, Hcolumn).
    rewrite E. exact HS.
Qed.

Lemma make_emlo_doc_column_witness :
  let emlo_doc :=
    match EMLOCrawler.make_emlo_doc int_decimal EMLOCrawler.init
            (Sample.data_row 7) Sample.headers with
    | Return emlo_doc => emlo_doc
    | Raise _ => EMLODoc.init None
    end in
  EMLODoc.author emlo_doc
  = clean_cell_content <$> tds (Sample.data_row 7) !! 3%nat
  /\ is_Some (EMLODoc.author emlo_doc).
Proof.
  intros emlo_doc.
  apply (make_emlo_doc_column int_decimal EMLOCrawler.init (Sample.data_row 7)
           Sample.headers emlo_doc (u "Author", EMLODoc.author)
           [u "Result_num"; u "Doc_type"; u "Date"]
           [u "Origin"; u "Addressee"; u "Destination";
            u "Repositories & Versions"]).
  - vm_compute. reflexivity.
  - unfold columns. set_solver.
  - reflexivity.
  - vm_compute. intros H.
    repeat (apply elem_of_cons in H as [H|H]; [discriminate H|]).
    inversion H.
Defined.

(** X10. A data row with fewer cells than there are headers gives no
    record: building the dictionary raises [IndexError], before the link
    is looked at. *)
Theorem make_emlo_doc_short_row
    (int : str -> option Z) (self : EMLOCrawler.t) (results_row : Row)
    (headers : list str) :
  (length (tds results_row) < length headers)%nat ->
  EMLOCrawler.make_emlo_doc int self results_row headers = Raise IndexError.
Proof.
  intros Hlen. unfold EMLOCrawler.make_emlo_doc.
  rewrite dict_of_row_short; [reflexivity| |].
  - rewrite length_map. simpl. exact Hlen.
  - destruct headers; [simpl in Hlen; lia|discriminate].
Qed.

Lemma make_emlo_doc_short_row_witness :
  EMLOCrawler.make_emlo_doc int_decimal EMLOCrawler.init
    {| ths := []; tds := [Sample.cell "1"; Sample.link "Letter" "/a/b/c"] |}
    Sample.headers
  = Raise IndexError.
Proof.
  apply make_emlo_doc_short_row. simpl. lia.
Defined.

(** X11. [json] of a record that [set_properties] filled from a dictionary
    gives the values of the dictionary under the nine keys of [json], in
    their order; the sequence number is not among them. *)
Theorem json_of_set_properties
    (int : str -> option Z) (self : EMLODoc.t) (doc : gmap str str)
    (emlo_doc : EMLODoc.t) :
  EMLODoc.set_properties int self doc = Return emlo_doc ->
  EMLODoc.json emlo_doc
  = [(u "id", doc !! u "doc_id");
     (u "type", doc !! u "Doc_type");
     (u "collection", EMLODoc.collection_name self);
     (u "date", doc !! u "Date");
     (u "author", doc !! u "Author");
     (u "addressee", doc !! u "Addressee");
     (u "origin", doc !! u "Origin");
     (u "destination", doc !! u "Destination");
     (u "repository", doc !! u "Repositories & Versions")]
  /\ Forall (fun entry => fst entry <> u "collection" -> is_Some (snd entry))
       (EMLODoc.json emlo_doc).
Proof.
  intros H.
  destruct (set_properties_fields _ _ _ _ H) as (_ & Hcn & Hid & HSid & Hcols).
  unfold columns in Hcols.
  repeat match goal with
         | H : Forall _ (_ :: _) |- _ =>
             apply Forall_cons in H as [[? ?] H]
         end.
  simpl in *.
  assert (EMLODoc.json emlo_doc
          = [(u "id", doc !! u "doc_id");
             (u "type", doc !! u "Doc_type");
             (u "collection", EMLODoc.collection_name self);
             (u "date", doc !! u "Date");
             (u "author", doc !! u "Author");
             (u "addressee", doc !! u "Addressee");
             (u "origin", doc !! u "Origin");
             (u "destination", doc !! u "Destination");
             (u "repository", doc !! u "Repositories & Versions")]) as E.
  { unfold EMLODoc.json. congruence. }
  split; [exact E|]. rewrite E.
  repeat (constructor; [simpl; intros Hk; try assumption;
                        exfalso; apply Hk; reflexivity|]).
  constructor.
Qed.

Lemma json_of_set_properties_witness :
  let doc := <[u "doc_id" := u "DOC123"]> (Sample.dict (Sample.data_row 7)) in
  let emlo_doc :=
    match EMLODoc.set_properties int_decimal (EMLODoc.init None) doc with
    | Return emlo_doc => emlo_doc
    | Raise _ => EMLODoc.init None
    end in
  Forall (fun entry => fst entry <> u "collection" -> is_Some (snd entry))
    (EMLODoc.json emlo_doc).
Proof.
  intros doc emlo_doc.
  apply (json_of_set_properties int_decimal (EMLODoc.init None) doc emlo_doc).
  vm_compute. reflexivity.
Defined.

(** * Further properties of the crawler *)

(** ** A crawler without a collection *)

(** X12. On a crawler whose collection or search name is not set,
    [make_results_page_url] and [get_results_page] raise [AssertionError];
    no request is sent and nothing is printed. *)
Theorem get_results_page_collection_unset
    (http : nat -> str -> option Response) (self : EMLOCrawler.t)
    (start_num : nat) (w : io) :
  EMLOCrawler.collection_name self = None
  \/ EMLOCrawler.search_name self = None ->
  EMLOCrawler.make_results_page_url self start_num = Raise AssertionError
  /\ EMLOCrawler.get_results_page http self start_num w
     = (Done (Raise AssertionError), w).
Proof.
  intros H.
  assert (EMLOCrawler.assert_collection_set self = Raise AssertionError) as E.
  { unfold EMLOCrawler.assert_collection_set.
    destruct H as [-> | ->]; [reflexivity|].
    destruct (EMLOCrawler.collection_name self); reflexivity. }
  unfold EMLOCrawler.make_results_page_url, EMLOCrawler.get_results_page,
    bind_io, pure.
  rewrite E. split; reflexivity.
Qed.

Lemma get_results_page_collection_unset_witness :
  EMLOCrawler.make_results_page_url EMLOCrawler.init 0 = Raise AssertionError
  /\ EMLOCrawler.get_results_page (Sample.paged 12 10) EMLOCrawler.init 0
       Sample.start
     = (Done (Raise AssertionError), Sample.start).
Proof.
  apply (get_results_page_collection_unset (Sample.paged 12 10)
           EMLOCrawler.init 0 Sample.start).
  left. reflexivity.
Defined.

(** ** One URL for each offset *)

(** X13. With the collection set, the URLs of two offsets are the same
    only when the offsets are. *)
Theorem make_results_page_url_injective
    (self : EMLOCrawler.t) (start_num start_num' : nat) :
  EMLOCrawler.assert_collection_set self = Return tt ->
  EMLOCrawler.make_results_page_url self start_num
  = EMLOCrawler.make_results_page_url self start_num' ->
  start_num = start_num'.
Proof.
  intros Hset E.
  rewrite !(make_results_page_url_set self Hset) in E.
  injection E as E. unfold url_for in E.
  repeat apply app_inv_head in E.
  assert (nat_of_str (str_of_nat start_num)
          = nat_of_str (str_of_nat start_num')) as E' by congruence.
  rewrite !nat_of_str_of_nat in E'. congruence.
Qed.

Lemma make_results_page_url_injective_witness : 10%nat = 10%nat.
Proof.
  apply (make_results_page_url_injective
           (EMLOCrawler.set_collection EMLOCrawler.init
              (u "Scaliger, Joseph Justus") (u "Scaliger%2C+Joseph+Justus"))
           10 10);
    reflexivity.
Defined.

(** ** A collection descriptor without its keys *)

(** X14. When [collection_info] lacks [collection_name] or [search_name],
    [crawl_collection] raises [KeyError] without sending a request; the
    first line is printed only when [collection_name] is there. *)
Theorem crawl_collection_missing_key
    (int : str -> option Z) (http : nat -> str -> option Response)
    (fuel : nat) (self : EMLOCrawler.t) (collection_info : gmap str str)
    (w : io) :
  collection_info !! u "collection_name" = None
  \/ collection_info !! u "search_name" = None ->
  EMLOCrawler.crawl_collection int http fuel self collection_info w
  = (Done (Raise KeyError),
     {| sent := sent w;
        trace := trace w
                   ++ match collection_info !! u "collection_name" with
                      | Some name => [Print (crawling_collection name)]
                      | None => []
                      end |}).
Proof.
  unfold EMLOCrawler.crawl_collection, bind_io, pure, getkey.
  destruct (collection_info !! u "collection_name") as [c|].
  - intros [H|H]; [discriminate|]. rewrite H. reflexivity.
  - intros _. rewrite app_nil_r. destruct w. reflexivity.
Qed.

Lemma crawl_collection_missing_key_witness :
  EMLOCrawler.crawl_collection int_decimal (Sample.paged 12 10) 5
    EMLOCrawler.init
    (<[u "name" := u "Scaliger, Joseph Justus"]>
       (<[u "search_name" := u "Scaliger%2C+Joseph+Justus"]> ∅))
    Sample.start
  = (Done (Raise KeyError), {| sent := 0; trace := [] |}).
Proof.
  rewrite (crawl_collection_missing_key int_decimal (Sample.paged 12 10) 5
             EMLOCrawler.init
             (<[u "name" := u "Scaliger, Joseph Justus"]>
                (<[u "search_name" := u "Scaliger%2C+Joseph+Justus"]> ∅))
             Sample.start); [|left; reflexivity].
  vm_compute. reflexivity.
Defined.

(** ** A request that fails *)

Lemma loop_body_request_fails int http self crawl_finished emlo_docs w :
  EMLOCrawler.assert_collection_set self = Return tt ->
  (http (sent w) (url_for self (length emlo_docs)) = None
   \/ exists response,
        http (sent w) (url_for self (length emlo_docs)) = Some response
        /\ status_code response <> 200%Z) ->
  exists evs,
    EMLOCrawler.loop_body int http self crawl_finished emlo_docs w
    = (Done (Raise RequestException),
       {| sent := S (sent w);
          trace := trace w
                     ++ Print (retrieving_results_starting_from
                                 (length emlo_docs))
                     :: HttpGet (url_for self (length emlo_docs)) :: evs |})
    /\ (evs = [] \/ evs = [Sleep]).
Proof.
  intros Hset Hhttp.
  unfold EMLOCrawler.loop_body, EMLOCrawler.get_results_page, bind_io,
    print, pure.
  rewrite Hset, (make_results_page_url_set self Hset). simpl.
  unfold get_results_page, bind_io, get_wait_url. simpl.
  destruct Hhttp as [->|(response & -> & Hstatus)].
  - exists []. rewrite <- app_assoc. split; [reflexivity|auto].
  - destruct (decide (status_code response ≠ 200%Z)) as [_|Hs];
      [|contradiction].
    exists [Sleep]. unfold raise. rewrite <- app_assoc.
    split; [reflexivity|auto].
Qed.

(** X15. When the request of an iteration gets no response, or one whose
    status is not 200, the crawl ends there with [RequestException],
    whatever was accumulated before: the records are not returned and no
    further request is sent. *)
Theorem while_not_finished_request_fails
    (int : str -> option Z) (http : nat -> str -> option Response)
    (self : EMLOCrawler.t) (fuel : nat) (emlo_docs : list EMLODoc.t)
    (w : io) :
  EMLOCrawler.assert_collection_set self = Return tt ->
  (http (sent w) (url_for self (length emlo_docs)) = None
   \/ exists response,
        http (sent w) (url_for self (length emlo_docs)) = Some response
        /\ status_code response <> 200%Z) ->
  exists w',
    EMLOCrawler.while_not_finished int http (S fuel) self false emlo_docs w
    = (Done (Raise RequestException), w')
    /\ sent w' = S (sent w)
    /\ progress (trace w') = progress (trace w).
Proof.
  intros Hset Hhttp.
  destruct (loop_body_request_fails int http self false emlo_docs w Hset Hhttp)
    as (evs & E & Hevs).
  simpl. unfold bind_io. rewrite E.
  eexists. split; [reflexivity|]. split; [reflexivity|]. simpl.
  unfold progress. rewrite omap_app.
  destruct Hevs as [-> | ->]; simpl; apply app_nil_r.
Qed.

Lemma while_not_finished_request_fails_witness :
  exists w',
    EMLOCrawler.while_not_finished int_decimal
      (fun k url => if (k =? 1)%nat
                    then Some {| status_code := 503;
                                 content := Sample.page 0 0 0 |}
                    else Sample.paged 12 10 k url)
      5 (EMLOCrawler.set_collection EMLOCrawler.init
           (u "Scaliger, Joseph Justus") (u "Scaliger%2C+Joseph+Justus"))
      false (replicate 10 (EMLODoc.init None))
      {| sent := 1; trace := [] |}
    = (Done (Raise RequestException), w')
    /\ sent w' = 2%nat
    /\ progress (trace w') = [].
Proof.
  apply (while_not_finished_request_fails int_decimal
           (fun k url => if (k =? 1)%nat
                         then Some {| status_code := 503;
                                      content := Sample.page 0 0 0 |}
                         else Sample.paged 12 10 k url)
           (EMLOCrawler.set_collection EMLOCrawler.init
              (u "Scaliger, Joseph Justus") (u "Scaliger%2C+Joseph+Justus"))
           4 (replicate 10 (EMLODoc.init None)) {| sent := 1; trace := [] |}).
  - reflexivity.
  - right. eexists. split; [reflexivity|]. simpl. lia.
Defined.

(** ** What parsing a page does to the outside *)

Lemma split_from_first sep s :
  forall skip, exists before, split_from sep skip s !! 0%nat = Some before.
Proof.
  induction s as [|c s IHs]; intros skip; simpl; [eauto|].
  destruct skip as [|k]; [|apply IHs].
  destruct (starts_with sep (c :: s)); [simpl; eauto|].
  destruct (split_from sep 0 s); simpl; eauto.
Qed.

Lemma split_first sep s : exists before, split sep s !! 0%nat = Some before.
Proof. apply split_from_first. Qed.

(** X18. [parse_results_page] sends no request, and it prints exactly when
    the rows gave their records and the total is no integer: then it
    prints the stripped text of the span, once, and raises [ValueError].
    In every other case, a returned page included, the outside is left as
    it was; a page that is returned carries the records of its rows and
    the integer read before [" results"]. *)
Theorem parse_results_page_effects
    (int : str -> option Z) (self : EMLOCrawler.t) (page_soup : Soup)
    (w : io) :
  exists r w',
    EMLOCrawler.parse_results_page int self page_soup w = (Done r, w')
    /\ sent w' = sent w
    /\ ((exists span,
            total_unreadable int self page_soup span
            /\ r = Raise ValueError
            /\ trace w' = trace w ++ [Print (span_text (strip span))])
        \/ ((forall span, ~ total_unreadable int self page_soup span)
            /\ w' = w))
    /\ (forall data,
           r = Return data ->
           exists results_rows span before,
             results page_soup = Some results_rows
             /\ snd (EMLOCrawler.parse_results_rows int self results_rows)
                = Return (EMLOCrawler.parsed_results data)
             /\ font_18 page_soup = Some span
             /\ split (u " results") (strip span) !! 0%nat = Some before
             /\ int before = Some (EMLOCrawler.total_results data)).
Proof.
  unfold EMLOCrawler.parse_results_page, raise.
  destruct (results page_soup) as [results_rows|] eqn:Hrows.
  2: { do 2 eexists. split; [reflexivity|]. split; [reflexivity|].
       split; [|discriminate]. right. split; [|reflexivity].
       intros span (? & ? & ? & ? & _). congruence. }
  unfold bind_io, pure.
  destruct (snd (EMLOCrawler.parse_results_rows int self results_rows))
    as [records|e] eqn:Hrecords.
  2: { do 2 eexists. split; [reflexivity|]. split; [reflexivity|].
       split; [|discriminate]. right. split; [|reflexivity].
       intros span (? & ? & ? & ? & ? & _). congruence. }
  destruct (font_18 page_soup) as [span|] eqn:Hspan.
  2: { do 2 eexists. split; [reflexivity|]. split; [reflexivity|].
       split; [|discriminate]. right. split; [|reflexivity].
       intros span (? & ? & ? & _ & _ & ? & _). congruence. }
  destruct (split_first (u " results") (strip span)) as [before Hbefore].
  unfold getitem. rewrite Hbefore.
  destruct (int before) as [total|] eqn:Hint.
  - do 2 eexists. split; [reflexivity|]. split; [reflexivity|]. split.
    + right. split; [|reflexivity].
      intros span' (? & ? & before' & _ & _ & Hspan' & Hbefore' & Hint').
      congruence.
    + intros data [= <-]. simpl. exists results_rows, span, before. auto.
  - do 2 eexists. split; [reflexivity|]. split; [reflexivity|].
    split; [|discriminate].
    left. exists span. split; [|split; reflexivity].
    exists results_rows, records, before. auto.
Qed.

(** A page whose span reads "many results" and one that reads
    "5 results". *)
Example parse_results_page_total :
  let unreadable :=
    {| results := Some [Sample.header_row];
       font_18 := Some (u " many results ") |} in
  EMLOCrawler.parse_results_page int_decimal EMLOCrawler.init unreadable
    Sample.start
  = (Done (Raise ValueError),
     {| sent := 0; trace := [Print (span_text (u "many results"))] |})
  /\ EMLOCrawler.parse_results_page int_decimal EMLOCrawler.init
       (Sample.page 0 0 5) Sample.start
     = (Done (Return {| EMLOCrawler.total_results := 5;
                        EMLOCrawler.parsed_results := [] |}),
        Sample.start).
Proof. split; vm_compute; reflexivity. Qed.

(** ** The events of a crawl *)

Lemma blocks_snoc self pages :
  forall start_num n count total,
    last (start_num :: map fst pages) = Some n ->
    blocks self start_num (pages ++ [(count, total)])
    = blocks self start_num pages
        ++ [Print (retrieving_results_starting_from n);
            HttpGet (url_for self n); Sleep;
            Print (of_retrieved count total)].
Proof.
  induction pages as [|[c t] pages IH]; intros start_num n count total Hlast.
  - injection Hlast as <-. reflexivity.
  - simpl in *. rewrite (IH c n count total Hlast). reflexivity.
Qed.

Section Events.
Variable int : str -> option Z.
Variable http : nat -> str -> option Response.
Variable self : EMLOCrawler.t.
Hypothesis collection_set : EMLOCrawler.assert_collection_set self = Return tt.

(** The events of one iteration, to the last. *)
Lemma loop_body_events crawl_finished emlo_docs w :
  exists r w' evs,
    EMLOCrawler.loop_body int http self crawl_finished emlo_docs w
    = (Done r, w')
    /\ trace w'
       = trace w
           ++ Print (retrieving_results_starting_from (length emlo_docs))
           :: HttpGet (url_for self (length emlo_docs)) :: evs
    /\ match r with
       | Return (finished, emlo_docs') =>
           exists total,
             evs = [Sleep; Print (of_retrieved (length emlo_docs') total)]
       | Raise e =>
           (evs = [] /\ e = RequestException)
           \/ evs = [Sleep]
           \/ (exists s, evs = [Sleep; Print (span_text s)] /\ e = ValueError)
       end.
Proof.
  unfold EMLOCrawler.loop_body, EMLOCrawler.get_results_page, bind_io,
    print, pure.
  rewrite collection_set, (make_results_page_url_set self collection_set).
  simpl.
  unfold get_results_page, bind_io, get_wait_url. simpl.
  destruct (http (sent w) (url_for self (length emlo_docs)))
    as [response|] eqn:Hhttp.
  2: { do 3 eexists. split; [reflexivity|]. simpl.
       rewrite <- app_assoc. simpl. split; [reflexivity|auto]. }
  destruct (decide (status_code response ≠ 200%Z)) as [Hs|Hs].
  { do 3 eexists. split; [reflexivity|]. simpl.
    rewrite <- app_assoc. simpl. split; [reflexivity|auto]. }
  unfold ret, EMLOCrawler.parse_results_page.
  destruct (results (content response)) as [results_rows|].
  2: { do 3 eexists. split; [reflexivity|]. simpl.
       rewrite <- app_assoc. simpl. split; [reflexivity|auto]. }
  unfold bind_io, pure.
  destruct (snd (EMLOCrawler.parse_results_rows int self results_rows))
    as [page|e].
  2: { do 3 eexists. split; [reflexivity|]. simpl.
       rewrite <- app_assoc. simpl. split; [reflexivity|auto]. }
  destruct (font_18 (content response)) as [span|].
  2: { do 3 eexists. split; [reflexivity|]. simpl.
       rewrite <- app_assoc. simpl. split; [reflexivity|auto]. }
  destruct (getitem (split (u " results") (strip span)) 0) as [before|e].
  2: { do 3 eexists. split; [reflexivity|]. simpl.
       rewrite <- app_assoc. simpl. split; [reflexivity|auto]. }
  destruct (int before) as [total|].
  2: { do 3 eexists. split; [reflexivity|]. simpl.
       rewrite <- !app_assoc. simpl. split; [reflexivity|].
       right. right. eauto. }
  unfold ret. simpl.
  destruct (Z.of_nat (length (emlo_docs ++ page)) >=? total)%Z;
    do 3 eexists; (split; [reflexivity|]); simpl;
    rewrite <- !app_assoc; simpl; (split; [reflexivity|]); eauto.
Qed.

Variable emlo_docs0 : list EMLODoc.t.
Variable w0 : io.

Lemma while_not_finished_events fuel :
  forall emlo_docs w pages,
    trace w = trace w0 ++ blocks self (length emlo_docs0) pages ->
    last (length emlo_docs0 :: map fst pages) = Some (length emlo_docs) ->
    forall out w',
      EMLOCrawler.while_not_finished int http fuel self false emlo_docs w
      = (out, w') ->
      exists pages' n rest,
        trace w' = trace w0 ++ blocks self (length emlo_docs0) pages' ++ rest
        /\ last (length emlo_docs0 :: map fst pages') = Some n
        /\ remainder self n out rest.
Proof.
  induction fuel as [|fuel IH]; intros emlo_docs w pages Htr Hlast out w' Hrun.
  - simpl in Hrun. injection Hrun as <- <-.
    exists pages, (length emlo_docs), []. rewrite app_nil_r.
    split; [exact Htr|]. split; [exact Hlast|reflexivity].
  - simpl in Hrun. unfold bind_io in Hrun.
    destruct (loop_body_events false emlo_docs w)
      as (r & w1 & evs & E & Htr' & Hevs).
    rewrite E in Hrun.
    destruct r as [[fin emlo_docs']|e].
    + destruct Hevs as (total & ->). simpl in Hrun.
      assert (trace w1
              = trace w0
                  ++ blocks self (length emlo_docs0)
                       (pages ++ [(length emlo_docs', total)])) as Htr1.
      { rewrite (blocks_snoc _ _ _ _ _ _ Hlast), Htr', Htr, <- app_assoc.
        reflexivity. }
      assert (last (length emlo_docs0
                      :: map fst (pages ++ [(length emlo_docs', total)]))
              = Some (length emlo_docs')) as Hlast1.
      { rewrite map_app. simpl.
        change (length emlo_docs0 :: map fst pages ++ [length emlo_docs'])
          with ((length emlo_docs0 :: map fst pages) ++ [length emlo_docs']).
        apply last_snoc. }
      destruct fin.
      * rewrite (while_finished int http self) in Hrun.
        injection Hrun as <- <-.
        exists (pages ++ [(length emlo_docs', total)]), (length emlo_docs'), [].
        rewrite app_nil_r. split; [exact Htr1|]. split; [exact Hlast1|].
        split; reflexivity.
      * exact (IH _ _ _ Htr1 Hlast1 _ _ Hrun).
    + injection Hrun as <- <-.
      exists pages, (length emlo_docs),
        (Print (retrieving_results_starting_from (length emlo_docs))
           :: HttpGet (url_for self (length emlo_docs)) :: evs).
      split; [rewrite Htr', Htr, <- app_assoc; reflexivity|].
      split; [exact Hlast|]. exists evs. split; [reflexivity|exact Hevs].
Qed.
End Events.

(** X16. The events of a crawl, in full. After the first line there is
    one block for each page that went through (its offset printed, the
    request at that offset, the sleep, the progress line), each block
    starting at the count the one before ended with, and nothing more
    when the crawl returns. When it raises, the iteration that raised
    follows, cut where it raised. So a request is followed at once by a
    sleep, unless it got no response and ended the crawl, and a crawl
    that returns made one request for each page it counted. *)
Theorem crawl_collection_events
    (int : str -> option Z) (http : nat -> str -> option Response)
    (fuel : nat) (self : EMLOCrawler.t) (collection_info : gmap str str)
    (c s : str) (w w' : io) (out : outcome (list EMLODoc.t)) :
  collection_info !! u "collection_name" = Some c ->
  collection_info !! u "search_name" = Some s ->
  EMLOCrawler.crawl_collection int http fuel self collection_info w
  = (out, w') ->
  let crawler := EMLOCrawler.set_collection self c s in
  exists pages n rest,
    trace w'
    = trace w ++ Print (crawling_collection c) :: blocks crawler 0 pages ++ rest
    /\ last (0%nat :: map fst pages) = Some n
    /\ remainder crawler n out rest.
Proof.
  intros Hc Hs Hrun crawler.
  rewrite (crawl_collection_loop int http self collection_info fuel w c s
             Hc Hs) in Hrun.
  destruct (while_not_finished_events int http crawler eq_refl []
              {| sent := sent w;
                 trace := trace w ++ [Print (crawling_collection c)] |}
              fuel [] _ [] (eq_sym (app_nil_r _)) eq_refl out w' Hrun)
    as (pages & n & rest & Htr & Hlast & Hrest).
  exists pages, n, rest. split; [|split; assumption].
  rewrite Htr. simpl. rewrite <- app_assoc. reflexivity.
Qed.

Lemma crawl_collection_events_witness :
  let run := Sample.crawl (Sample.paged 12 10) 5 in
  let crawler :=
    EMLOCrawler.set_collection EMLOCrawler.init
      (u "Scaliger, Joseph Justus") (u "Scaliger%2C+Joseph+Justus") in
  exists pages n rest,
    trace (snd run)
    = trace Sample.start
        ++ Print (crawling_collection (u "Scaliger, Joseph Justus"))
        :: blocks crawler 0 pages ++ rest
    /\ last (0%nat :: map fst pages) = Some n
    /\ remainder crawler n (fst run) rest.
Proof.
  intros run crawler.
  apply (crawl_collection_events int_decimal (Sample.paged 12 10) 5
           EMLOCrawler.init Sample.scaliger (u "Scaliger, Joseph Justus")
           (u "Scaliger%2C+Joseph+Justus") Sample.start (snd run) (fst run)).
  - reflexivity.
  - reflexivity.
  - vm_compute. reflexivity.
Defined.

(** ** A server that brings records *)

Section Advance.
Variable int : str -> option Z.
Variable http : nat -> str -> option Response.
Variable self : EMLOCrawler.t.
Variable T : Z.
Hypothesis collection_set : EMLOCrawler.assert_collection_set self = Return tt.

(** Every page is served, gives at least one record and reports [T]. *)
Hypothesis advances :
  forall k url,
  exists response records,
    http k url = Some response
    /\ status_code response = 200%Z
    /\ (forall w,
           EMLOCrawler.parse_results_page int self (content response) w
           = (Done (Return {| EMLOCrawler.total_results := T;
                              EMLOCrawler.parsed_results := records |}), w))
    /\ records <> [].

Lemma loop_body_advances emlo_docs w :
  exists records w',
    records <> []
    /\ sent w' = S (sent w)
    /\ EMLOCrawler.loop_body int http self false emlo_docs w
       = (Done (Return ((Z.of_nat (length (emlo_docs ++ records)) >=? T)%Z,
                        emlo_docs ++ records)), w').
Proof.
  destruct (advances (sent w) (url_for self (length emlo_docs)))
    as (response & records & Hhttp & Hstatus & Hpage & Hne).
  exists records.
  unfold EMLOCrawler.loop_body, EMLOCrawler.get_results_page, bind_io,
    print, pure.
  rewrite collection_set, (make_results_page_url_set self collection_set).
  simpl.
  unfold get_results_page, bind_io, get_wait_url. simpl.
  rewrite Hhttp.
  destruct (decide (status_code response ≠ 200%Z)) as [Hs|Hs];
    [contradiction|].
  unfold ret. rewrite Hpage. simpl.
  destruct (Z.of_nat (length (emlo_docs ++ records)) >=? T)%Z;
    eexists; (split; [exact Hne|]); (refine (conj _ eq_refl)); reflexivity.
Qed.

Lemma while_not_finished_advances fuel :
  forall emlo_docs w,
    (Z.to_nat (T - Z.of_nat (length emlo_docs)) <= fuel)%nat ->
    (1 <= fuel)%nat ->
    exists emlo_docs' w',
      EMLOCrawler.while_not_finished int http fuel self false emlo_docs w
      = (Done (Return emlo_docs'), w')
      /\ (T <= Z.of_nat (length emlo_docs'))%Z
      /\ (sent w'
          <= sent w
             + Nat.max 1 (Z.to_nat (T - Z.of_nat (length emlo_docs))))%nat.
Proof.
  induction fuel as [|fuel IH]; intros emlo_docs w Hfuel Hone; [lia|].
  simpl. unfold bind_io.
  destruct (loop_body_advances emlo_docs w)
    as (records & w1 & Hne & Hsent & ->).
  simpl.
  assert (length (emlo_docs ++ records) > length emlo_docs)%nat as Hmore.
  { rewrite length_app. destruct records; [congruence|simpl; lia]. }
  destruct (Z.of_nat (length (emlo_docs ++ records)) >=? T)%Z eqn:Hge.
  - rewrite (while_finished int http self).
    do 2 eexists. split; [reflexivity|].
    apply Z.geb_le in Hge. split; [lia|lia].
  - rewrite Z.geb_leb in Hge. apply Z.leb_gt in Hge.
    destruct (IH (emlo_docs ++ records) w1) as (emlo_docs' & w' & -> & HT & Hs);
      [lia|lia|].
    do 2 eexists. split; [reflexivity|]. split; [exact HT|lia].
Qed.
End Advance.

(** X17. Against a server whose every page is served, gives at least one
    record and reports the total [T], the crawl returns: the loop needs no
    more than [max(1, T)] iterations, sends no more than that many
    requests, and the list returned has at least [T] records. *)
Theorem crawl_collection_returns
    (int : str -> option Z) (http : nat -> str -> option Response)
    (self : EMLOCrawler.t) (collection_info : gmap str str) (c s : str)
    (T : Z) (fuel : nat) (w : io) :
  collection_info !! u "collection_name" = Some c ->
  collection_info !! u "search_name" = Some s ->
  (forall k url,
    exists response records,
      http k url = Some response
      /\ status_code response = 200%Z
      /\ (forall w,
             EMLOCrawler.parse_results_page int
               (EMLOCrawler.set_collection self c s) (content response) w
             = (Done (Return {| EMLOCrawler.total_results := T;
                                EMLOCrawler.parsed_results := records |}), w))
      /\ records <> []) ->
  (Nat.max 1 (Z.to_nat T) <= fuel)%nat ->
  exists emlo_docs w',
    EMLOCrawler.crawl_collection int http fuel self collection_info w
    = (Done (Return emlo_docs), w')
    /\ (T <= Z.of_nat (length emlo_docs))%Z
    /\ (sent w' <= sent w + Nat.max 1 (Z.to_nat T))%nat.
Proof.
  intros Hc Hs Hadvances Hfuel.
  rewrite (crawl_collection_loop int http self collection_info fuel w c s
             Hc Hs).
  destruct (while_not_finished_advances int http
              (EMLOCrawler.set_collection self c s) T eq_refl Hadvances fuel
              [] {| sent := sent w;
                    trace := trace w ++ [Print (crawling_collection c)] |})
    as (emlo_docs & w' & E & HT & Hsent).
  - simpl. lia.
  - lia.
  - exists emlo_docs, w'. split; [exact E|]. split; [exact HT|].
    simpl in Hsent. lia.
Qed.

Lemma crawl_collection_returns_witness :
  exists emlo_docs w',
    EMLOCrawler.crawl_collection int_decimal (Sample.constant 2 5) 5
      EMLOCrawler.init Sample.scaliger Sample.start
    = (Done (Return emlo_docs), w')
    /\ (5 <= Z.of_nat (length emlo_docs))%Z
    /\ (sent w' <= sent Sample.start + Nat.max 1 (Z.to_nat 5))%nat.
Proof.
  apply (crawl_collection_returns int_decimal (Sample.constant 2 5)
           EMLOCrawler.init Sample.scaliger (u "Scaliger, Joseph Justus")
           (u "Scaliger%2C+Joseph+Justus") 5 5 Sample.start).
  - reflexivity.
  - reflexivity.
  - intros k url.
    exists {| status_code := 200; content := Sample.page 0 2 5 |},
      (match snd (EMLOCrawler.parse_results_rows int_decimal
                    (EMLOCrawler.set_collection EMLOCrawler.init
                       (u "Scaliger, Joseph Justus")
                       (u "Scaliger%2C+Joseph+Justus"))
                    (Sample.header_row :: Sample.data_rows 0 2)) with
       | Return records => records
       | Raise _ => []
       end).
    split; [reflexivity|]. split; [reflexivity|].
    split; [intros w0; vm_compute; reflexivity|vm_compute; discriminate].
  - vm_compute. lia.
Defined.

(** ** The records of a crawl *)

Lemma make_emlo_doc_complete int self results_row headers emlo_doc :
  EMLOCrawler.make_emlo_doc int self results_row headers = Return emlo_doc ->
  EMLODoc.collection_name emlo_doc = EMLOCrawler.collection_name self
  /\ complete emlo_doc.
Proof.
  intros H.
  destruct (make_emlo_doc_steps _ _ _ _ _ H) as (doc & doc_id & _ & _ & Hset).
  destruct (set_properties_fields _ _ _ _ Hset)
    as ((field & n & _ & _ & Hn) & Hcn & Hid & HSid & Hcols).
  split; [exact Hcn|]. unfold complete.
  split; [rewrite Hn; eauto|]. split; [rewrite Hid; exact HSid|].
  eapply Forall_impl; [exact Hcols|]. intros column [E HS].
  rewrite E. exact HS.
Qed.

Lemma parse_results_rows_complete int self results_rows page :
  snd (EMLOCrawler.parse_results_rows int self results_rows) = Return page ->
  Forall (fun emlo_doc =>
            EMLODoc.collection_name emlo_doc = EMLOCrawler.collection_name self
            /\ complete emlo_doc) page.
Proof.
  destruct results_rows as [|header_row rows]; simpl; [discriminate|].
  destruct (parse_results_header header_row) as [headers|e]; simpl;
    [|discriminate].
  intros H. apply comprehension_Forall2 in H.
  induction H as [|row emlo_doc rows page Hrow _ IH]; constructor;
    [eapply make_emlo_doc_complete; exact Hrow|exact IH].
Qed.

(** X20. Every record of the list a crawl returns carries the collection
    name of [collection_info] and has all its attributes set: none is
    left [None]. *)
Theorem crawl_collection_records_complete
    (int : str -> option Z) (http : nat -> str -> option Response)
    (fuel : nat) (self : EMLOCrawler.t) (collection_info : gmap str str)
    (w w' : io) (emlo_docs : list EMLODoc.t) :
  EMLOCrawler.crawl_collection int http fuel self collection_info w
  = (Done (Return emlo_docs), w') ->
  exists c,
    collection_info !! u "collection_name" = Some c
    /\ Forall (fun emlo_doc =>
                 EMLODoc.collection_name emlo_doc = Some c
                 /\ complete emlo_doc) emlo_docs.
Proof.
  intros Hrun.
  destruct (crawl_collection_keys int http self collection_info fuel w
              emlo_docs w' Hrun) as (c & s & Hc & Hs).
  exists c. split; [exact Hc|].
  rewrite (crawl_collection_loop int http self collection_info fuel w c s
             Hc Hs) in Hrun.
  pose (P := fun emlo_doc =>
               EMLODoc.collection_name emlo_doc = Some c
               /\ complete emlo_doc).
  pose proof
    (while_rule int http (EMLOCrawler.set_collection self c s) eq_refl
       (fun emlo_docs _ => Forall P emlo_docs)
       (fun emlo_docs _ => Forall P emlo_docs)
       (fun _ => True) (fun _ => True)) as rule.
  cbv beta in rule.
  specialize (rule) with (fuel := fuel) (emlo_docs := @nil EMLODoc.t).
  match type of Hrun with
  | EMLOCrawler.while_not_finished _ _ _ _ _ _ ?w1 = _ =>
      specialize (rule) with (w := w1)
  end.
  rewrite Hrun in rule. apply rule; auto.
  intros emlo_docs1 w1 fin emlo_docs' w2 HP Hbody.
  apply (loop_body_returns int http (EMLOCrawler.set_collection self c s)
           eq_refl) in Hbody
    as (evs & response & rows & page & total & _ & _ & _ & _ & _ & _
        & Hpage & -> & _).
  assert (Forall P (emlo_docs1 ++ page)) as HP'.
  { apply Forall_app. split; [exact HP|].
    exact (parse_results_rows_complete _ _ _ _ Hpage). }
  destruct fin; exact HP'.
Qed.

Lemma crawl_collection_records_complete_witness :
  let run := Sample.crawl (Sample.paged 12 10) 5 in
  exists c,
    Sample.scaliger !! u "collection_name" = Some c
    /\ Forall (fun emlo_doc =>
                 EMLODoc.collection_name emlo_doc = Some c
                 /\ complete emlo_doc) (Sample.returned (fst run)).
Proof.
  intros run.
  apply (crawl_collection_records_complete int_decimal (Sample.paged 12 10) 5
           EMLOCrawler.init Sample.scaliger Sample.start (snd run)).
  vm_compute. reflexivity.
Defined.

(** ** The list returned, page by page *)

Lemma while_not_finished_concat int http self :
  EMLOCrawler.assert_collection_set self = Return tt ->
  forall fuel emlo_docs w emlo_docs' w',
    EMLOCrawler.while_not_finished int http fuel self false emlo_docs w
    = (Done (Return emlo_docs'), w') ->
    exists pages,
      emlo_docs' = emlo_docs ++ concat pages
      /\ fetched int http self (sent w) (length emlo_docs) pages
      /\ sent w' = (sent w + length pages)%nat
      /\ pages <> [].
Proof.
  intros Hset.
  induction fuel as [|fuel IH]; intros emlo_docs w emlo_docs' w' Hrun;
    [discriminate|].
  simpl in Hrun. unfold bind_io in Hrun.
  destruct (EMLOCrawler.loop_body int http self false emlo_docs w)
    as [[[[fin emlo_docs1]|e]|] w1] eqn:Hbody; try discriminate.
  apply (loop_body_returns int http self Hset) in Hbody
    as (evs & response & rows & page & total & _ & Hsent & _ & Hhttp
        & Hstatus & Hrows & Hpage & -> & _ & _).
  simpl in Hrun.
  assert (exists response results_rows,
             http (sent w) (url_for self (length emlo_docs)) = Some response
             /\ status_code response = 200%Z
             /\ results (content response) = Some results_rows
             /\ snd (EMLOCrawler.parse_results_rows int self results_rows)
                = Return page) as Hfirst
    by (exists response, rows; repeat split; assumption).
  destruct fin.
  - rewrite (while_finished int http self) in Hrun. injection Hrun as <- <-.
    exists [page]. simpl. rewrite app_nil_r.
    split; [reflexivity|]. split; [auto|]. split; [lia|discriminate].
  - destruct (IH _ _ _ _ Hrun) as (pages & -> & Hpages & Hsent' & _).
    exists (page :: pages). simpl.
    split; [rewrite <- app_assoc; reflexivity|].
    rewrite length_app, Hsent in Hpages.
    split; [auto|]. split; [lia|discriminate].
Qed.

(** X21. The list a crawl returns is the records of the pages it
    requested, one page after the other: page [i] comes from the rows of
    the response to request [i], and that request was at the offset that
    is the number of records of the pages before it. *)
Theorem crawl_collection_concat
    (int : str -> option Z) (http : nat -> str -> option Response)
    (fuel : nat) (self : EMLOCrawler.t) (collection_info : gmap str str)
    (c s : str) (w w' : io) (emlo_docs : list EMLODoc.t) :
  collection_info !! u "collection_name" = Some c ->
  collection_info !! u "search_name" = Some s ->
  EMLOCrawler.crawl_collection int http fuel self collection_info w
  = (Done (Return emlo_docs), w') ->
  exists pages,
    emlo_docs = concat pages
    /\ fetched int http (EMLOCrawler.set_collection self c s) (sent w) 0 pages
    /\ sent w' = (sent w + length pages)%nat
    /\ pages <> [].
Proof.
  intros Hc Hs Hrun.
  rewrite (crawl_collection_loop int http self collection_info fuel w c s
             Hc Hs) in Hrun.
  destruct (while_not_finished_concat int http
              (EMLOCrawler.set_collection self c s) eq_refl _ _ _ _ _ Hrun)
    as (pages & E & Hpages & Hsent & Hne).
  exists pages. simpl in *. repeat split; assumption.
Qed.

Lemma crawl_collection_concat_witness :
  let run := Sample.crawl (Sample.paged 12 10) 5 in
  exists pages,
    Sample.returned (fst run) = concat pages
    /\ fetched int_decimal (Sample.paged 12 10)
         (EMLOCrawler.set_collection EMLOCrawler.init
            (u "Scaliger, Joseph Justus") (u "Scaliger%2C+Joseph+Justus"))
         (sent Sample.start) 0 pages
    /\ sent (snd run) = (sent Sample.start + length pages)%nat
    /\ pages <> [].
Proof.
  intros run.
  apply (crawl_collection_concat int_decimal (Sample.paged 12 10) 5
           EMLOCrawler.init Sample.scaliger (u "Scaliger, Joseph Justus")
           (u "Scaliger%2C+Joseph+Justus") Sample.start (snd run)).
  - reflexivity.
  - reflexivity.
  - vm_compute. reflexivity.
Defined.

(** ** A collection on one page *)

(** X19. When the first page gives at least as many records as the total
    it reports (none at all for "0 results"), the crawl returns the
    records of that page after this one request. *)
Theorem crawl_collection_single_page
    (int : str -> option Z) (http : nat -> str -> option Response)
    (fuel : nat) (self : EMLOCrawler.t) (collection_info : gmap str str)
    (c s : str) (w : io) (response : Response) (total : Z)
    (records : list EMLODoc.t) :
  collection_info !! u "collection_name" = Some c ->
  collection_info !! u "search_name" = Some s ->
  let crawler := EMLOCrawler.set_collection self c s in
  http (sent w) (url_for crawler 0) = Some response ->
  status_code response = 200%Z ->
  (forall w1,
      EMLOCrawler.parse_results_page int crawler (content response) w1
      = (Done (Return {| EMLOCrawler.total_results := total;
                         EMLOCrawler.parsed_results := records |}), w1)) ->
  (total <= Z.of_nat (length records))%Z ->
  exists w',
    EMLOCrawler.crawl_collection int http (S fuel) self collection_info w
    = (Done (Return records), w')
    /\ sent w' = S (sent w)
    /\ requests (trace w') = requests (trace w) ++ [url_for crawler 0].
Proof.
  intros Hc Hs crawler Hhttp Hstatus Hpage Htotal.
  rewrite (crawl_collection_loop int http self collection_info (S fuel) w c s
             Hc Hs).
  fold crawler. simpl. unfold bind_io.
  unfold EMLOCrawler.loop_body, EMLOCrawler.get_results_page, bind_io,
    print, pure.
  rewrite (make_results_page_url_set crawler eq_refl). simpl.
  unfold get_results_page, bind_io, get_wait_url. simpl.
  fold crawler. change (url_for crawler 0) with (url_for crawler 0) in Hhttp.
  rewrite Hhttp.
  destruct (decide (status_code response ≠ 200%Z)) as [Hne|_];
    [contradiction|].
  unfold ret. rewrite Hpage. simpl.
  destruct (Z.of_nat (length records) >=? total)%Z eqn:Hge.
  - rewrite (while_finished int http crawler).
    eexists. split; [reflexivity|]. split; [reflexivity|]. simpl.
    unfold requests. rewrite !omap_app. simpl. rewrite !app_nil_r.
    reflexivity.
  - rewrite Z.geb_leb in Hge. apply Z.leb_gt in Hge. lia.
Qed.

Lemma crawl_collection_single_page_witness :
  exists w',
    EMLOCrawler.crawl_collection int_decimal (Sample.paged 0 10) 1
      EMLOCrawler.init Sample.scaliger Sample.start
    = (Done (Return []), w')
    /\ sent w' = S (sent Sample.start)
    /\ requests (trace w')
       = requests (trace Sample.start)
           ++ [url_for (EMLOCrawler.set_collection EMLOCrawler.init
                          (u "Scaliger, Joseph Justus")
                          (u "Scaliger%2C+Joseph+Justus")) 0].
Proof.
  apply (crawl_collection_single_page int_decimal (Sample.paged 0 10) 0
           EMLOCrawler.init Sample.scaliger (u "Scaliger, Joseph Justus")
           (u "Scaliger%2C+Joseph+Justus") Sample.start
           {| status_code := 200; content := Sample.page 0 0 0 |} 0 []).
  - reflexivity.
  - reflexivity.
  - vm_compute. reflexivity.
  - reflexivity.
  - intros w1. vm_compute. reflexivity.
  - simpl. lia.
Defined.
